(** * The ONTAP [network/ip/interfaces] adapter of package [interfaces]

    A shallow embedding of [internal/interfaces/networking_ip_interface.go]:
    the four operations [GetIPInterface], [GetIPInterfaces],
    [CreateIPInterface] and [DeleteIPInterface], the data models they map
    with [mapstructure], and the collaborators they talk to (the REST
    client, the error handler, the debug log).

    Go values that can be [nil] (pointers, maps, slices, errors) are
    [option]s with [None] for [nil]; a call returns an [outcome], which is
    either the returned tuple or a run-time panic; the REST client, the
    error handler and the log are threaded through a state monad. *)

From stdpp Require Import base option list strings gmap pretty sorting.
From Stdlib Require Import ZArith Ascii.

#[local] Open Scope string_scope.
#[local] Open Scope list_scope.
#[local] Set Warnings "-register-all".

(** ** Go values *)

(** [interface{}] as it comes out of a JSON document or out of a struct
    flattened by mapstructure. Numbers are kept as integers. *)
Inductive value :=
| VNil
| VBool (b : bool)
| VInt (n : Z)
| VString (s : string)
| VSlice (l : list value)
| VMap (m : gmap string value).

(** [map[string]interface{}]; [None] is the nil map. *)
Abbreviation gomap := (option (gmap string value)).

(** The entries of a map, the nil map having none. *)
Definition entries (m : gomap) : gmap string value := default ∅ m.

(** [[]T]; [None] is the nil slice, [Some []] an empty slice that is not nil. *)
Definition slice (A : Type) : Type := option (list A).

Definition elems {A} (s : slice A) : list A := default [] s.

Definition len {A} (s : slice A) : nat := length (elems s).

(** [append(s, x)]: the result is never nil. *)
Definition append {A} (s : slice A) (x : A) : slice A := Some (elems s ++ [x]).

(** Run-time panics. *)
Inductive panic :=
| IndexOutOfRange (index length : nat).

(** What a call does: it returns, or it panics. *)
Inductive outcome (A : Type) :=
| Returns (a : A)
| Panics (p : panic).
Arguments Returns {A} a.
Arguments Panics {A} p.

(** [s[i]] *)
Definition index {A} (s : slice A) (i : nat) : outcome A :=
  match elems s !! i with
  | Some x => Returns x
  | None => Panics (IndexOutOfRange i (len s))
  end.

(** ** The data models *)

(** IPInterfaceGetDataModelONTAP describes the GET record data model. *)
Record IPInterfaceGetDataModelONTAP := {
  Name : string;      (* mapstructure:"name" *)
  Scope : string;     (* mapstructure:"scope" *)
  SVMName : string;   (* mapstructure:"svm.name" *)
  UUID : string;      (* mapstructure:"uuid" *)
}.

(** Modelled from the spec: the struct [Vserver], declared in another file
    of package [interfaces]; the wire shape [svm: {name}] gives it one
    field. *)
Record Vserver := {
  vserver_Name : string;   (* mapstructure:"name" *)
}.

(** IPInterfaceResourceIP is the body data model for IP field. *)
Record IPInterfaceResourceIP := {
  Address : string;   (* mapstructure:"address" *)
  Netmask : Z;        (* int64, mapstructure:"netmask" *)
}.

(** IPInterfaceResourceHomeNode is the body data model for home_node field. *)
Record IPInterfaceResourceHomeNode := {
  node_Name : string;   (* mapstructure:"name" *)
}.

(** IPInterfaceResourceHomePort is the body data model for home_port field. *)
Record IPInterfaceResourceHomePort := {
  port_Name : string;                   (* mapstructure:"name" *)
  Node : IPInterfaceResourceHomeNode;   (* mapstructure:"node" *)
}.

(** IPInterfaceResourceLocation is the body data model for location field;
    both fields are pointers. *)
Record IPInterfaceResourceLocation := {
  HomeNode : option IPInterfaceResourceHomeNode;   (* mapstructure:"home_node,omitempty" *)
  HomePort : option IPInterfaceResourceHomePort;   (* mapstructure:"home_port,omitempty" *)
}.

(** IPInterfaceResourceBodyDataModelONTAP describes the body data model. *)
Record IPInterfaceResourceBodyDataModelONTAP := {
  body_Name : string;                       (* mapstructure:"name" *)
  SVM : Vserver;                            (* mapstructure:"svm" *)
  IP : IPInterfaceResourceIP;               (* mapstructure:"ip" *)
  Location : IPInterfaceResourceLocation;   (* mapstructure:"location" *)
}.

(** ** Package restclient: queries and responses *)

(** [RestQuery] wraps [url.Values]: every key has a list of values. *)
Abbreviation RestQuery := (gmap string (list string)).

(** Modelled from the spec: [RestResponse], declared in package
    [restclient]: a response object exposing a records collection. *)
Record RestResponse := {
  Records : slice gomap;
}.

(** ** Package fmt *)

(** A formatted string is kept as its format with its operands: what
    [fmt] prints for [%#v] (pointers, unexported fields) is not modelled.
    Errors carry such strings, and [%s] takes an error, hence the mutual
    definition. [Errorf] is the error of [fmt.Errorf], [DecodeErrors] the
    [*mapstructure.Error] with its list of messages, [Diagnostic] the error
    the error handler makes. *)
Inductive gostring :=
| Lit (s : string)
| Sprintf (format : string) (operands : list operand)
with operand :=
| OString (s : string)
| OInt (n : Z)
| OError (e : goerror)
| OMap (m : gomap)
| OGet (d : IPInterfaceGetDataModelONTAP)
| OGetPtr (d : option IPInterfaceGetDataModelONTAP)
| OGets (ds : slice IPInterfaceGetDataModelONTAP)
| OBody (b : IPInterfaceResourceBodyDataModelONTAP)
| OResponse (r : RestResponse)
| OValue (v : value)
| OTypeOf (v : value)
with goerror :=
| Errorf (format : string) (operands : list operand)
| DecodeErrors (errors : list gostring)
| Diagnostic (summary detail : gostring).

Coercion Lit : string >-> gostring.

(** The interface type [error]; [None] is the nil error. *)
Abbreviation error := (option goerror).

(** [strings.Join] *)
Definition Join (elems : list string) (sep : string) : string :=
  match elems with
  | [] => ""
  | s :: elems => foldl (λ acc t, acc +:+ sep +:+ t) s elems
  end.

(** [fmt.Sprint] of one [interface{}], the [%v] rendering: a string as it
    is, a number in decimal, a slice between brackets, a map between
    [map[] and []] with its entries sorted by key. *)
Fixpoint Sprint (v : value) : string :=
  match v with
  | VNil => "<nil>"
  | VBool b => if b then "true" else "false"
  | VInt n => pretty n
  | VString s => s
  | VSlice l => "[" +:+ Join (map Sprint l) " " +:+ "]"
  | VMap m =>
      let rendered := map_fold (λ k v acc, (k, k +:+ ":" +:+ Sprint v) :: acc) [] m in
      let sorted := merge_sort (λ a b, String.leb a.1 b.1) rendered in
      "map[" +:+ Join (map snd sorted) " " +:+ "]"
  end.

(** ** The query builder of package restclient

    [RestQuery] and its methods live in package [restclient], which this
    file imports; [Set] and [Add] are those of [url.Values], which
    [RestQuery] wraps. *)

(** Modelled from the spec: [r.NewQuery()], the query-builder, which starts
    with no parameter. *)
Definition NewQuery : RestQuery := ∅.

(** Modelled from the spec: [query.Set(key, value)], key/value assignment;
    the value replaces whatever the key had. *)
Definition query_Set (key val : string) (query : RestQuery) : RestQuery :=
  <[key := [val]]> query.

(** Modelled from the spec: [query.Add(key, value)], key/value assignment;
    the value is appended to what the key has. *)
Definition query_Add (key val : string) (query : RestQuery) : RestQuery :=
  <[key := default [] (query !! key) ++ [val]]> query.

(** Modelled from the spec: [query.Fields(fields)], field-list selection;
    the parameter [fields] is set to the names, separated by commas. *)
Definition query_Fields (fields : list string) (query : RestQuery) : RestQuery :=
  query_Set "fields" (Join fields ",") query.

(** The zero value of its type: nil, false, 0, the empty string. *)
Definition is_zero (v : value) : bool :=
  match v with
  | VNil | VBool false | VInt 0 | VString "" => true
  | _ => false
  end.

(** Modelled from the spec: [query.SetValues(keyValues)], bulk assignment
    from a flattened mapping, in which any zero-valued field is treated as
    unconstrained, not as an explicit match-empty-string constraint: only
    non-empty fields are sent. An entry that is not zero-valued is assigned,
    its value as [fmt] prints it. *)
Definition query_SetValues (keyValues : gomap) (query : RestQuery) : RestQuery :=
  map_fold
    (λ key v query, if is_zero v then query else query_Set key (Sprint v) query)
    query (entries keyValues).

(** ** State and effects *)

(** What the adapter asked of the REST client, in order. *)
Inductive call :=
| CallGetNilOrOneRecord (baseURL : string) (query : option RestQuery) (body : gomap)
| CallGetZeroOrMoreRecords (baseURL : string) (query : option RestQuery) (body : gomap)
| CallCreate (baseURL : string) (query : option RestQuery) (body : gomap)
| CallDelete (baseURL : string) (query : option RestQuery) (body : gomap).

(** The world an operation runs in: the remote system behind the REST
    client, the calls made to it so far, the diagnostics the error handler
    has reported, and the debug log. *)
Record state (W : Type) := State {
  remote : W;
  calls : list call;
  diagnostics : list (gostring * gostring);
  debuglog : list gostring;
}.
Arguments State {W} _ _ _ _.
Arguments remote {W} _.
Arguments calls {W} _.
Arguments diagnostics {W} _.
Arguments debuglog {W} _.

Definition M (W A : Type) : Type := state W → outcome A * state W.

#[export] Instance M_ret {W} : MRet (M W) := λ A a st, (Returns a, st).

#[export] Instance M_bind {W} : MBind (M W) := λ A B k m st,
  match m st with
  | (Returns a, st') => k a st'
  | (Panics p, st') => (Panics p, st')
  end.

(** A pure step that may panic. *)
Definition lift {W A} (o : outcome A) : M W A := λ st, (o, st).

(** ** Package restclient: the client *)

(** The REST client, taken as a parameter: each method takes the state of
    the remote system to a status code, a response and an error, and to the
    next state of the remote system. The single-record GET returns one
    object or nil, the multi-record GET a slice of objects, create and
    delete a [RestResponse]. *)
Class RestClient (W : Type) := {
  GetNilOrOneRecord :
    string → option RestQuery → gomap → W → (Z * gomap * error) * W;
  GetZeroOrMoreRecords :
    string → option RestQuery → gomap → W → (Z * slice gomap * error) * W;
  CallCreateMethod :
    string → option RestQuery → gomap → W → (Z * RestResponse * error) * W;
  CallDeleteMethod :
    string → option RestQuery → gomap → W → (Z * RestResponse * error) * W;
}.

Section client_calls.
Context {W : Type} {r : RestClient W}.

(** A method of the client as a step: the call is recorded and the
    remote system moves on. *)
Definition perform {A} (c : call) (method : W → A * W) : M W A := λ st,
  let '(res, w) := method (remote st) in
  (Returns res, State w (calls st ++ [c]) (diagnostics st) (debuglog st)).

Definition r_GetNilOrOneRecord baseURL query body : M W (Z * gomap * error) :=
  perform (CallGetNilOrOneRecord baseURL query body)
          (GetNilOrOneRecord baseURL query body).

Definition r_GetZeroOrMoreRecords baseURL query body : M W (Z * slice gomap * error) :=
  perform (CallGetZeroOrMoreRecords baseURL query body)
          (GetZeroOrMoreRecords baseURL query body).

Definition r_CallCreateMethod baseURL query body : M W (Z * RestResponse * error) :=
  perform (CallCreate baseURL query body)
          (CallCreateMethod baseURL query body).

Definition r_CallDeleteMethod baseURL query body : M W (Z * RestResponse * error) :=
  perform (CallDelete baseURL query body)
          (CallDeleteMethod baseURL query body).
End client_calls.

(** ** Package utils: the error handler *)

(** Modelled from the spec: [ErrorHandler.MakeAndReportError], in package
    [utils]: a facility that, given a short summary and a detailed message,
    produces a caller-visible diagnostic error object. The diagnostic is
    reported to the handler and returned as the error. *)
Definition MakeAndReportError {W} (summary detail : gostring) : M W error := λ st,
  (Returns (Some (Diagnostic summary detail)),
   State (remote st) (calls st) (diagnostics st ++ [(summary, detail)]) (debuglog st)).

(** ** Package tflog *)

(** [tflog.Debug(ctx, msg)] writes a line to the debug log. *)
Definition tflog_Debug {W} (msg : gostring) : M W () := λ st,
  (Returns (), State (remote st) (calls st) (diagnostics st) (debuglog st ++ [msg])).

(** ** Package mapstructure *)

(** [mapstructure.Decode(input, &output)] maps an [A] onto a [B] by the
    [mapstructure] tags, or fails with an error. *)
Class Decoder (A B : Type) := Decode : A → B + goerror.
#[global] Hint Mode Decoder ! ! : typeclass_instances.

(** ** The adapter *)

Section adapter.
Context {W : Type} {r : RestClient W}.
Context {encode_filter : Decoder IPInterfaceGetDataModelONTAP gomap}.
Context {encode_body : Decoder IPInterfaceResourceBodyDataModelONTAP gomap}.
Context {decode_record : Decoder gomap IPInterfaceGetDataModelONTAP}.

(** GetIPInterface to get ip_interface info *)
Definition GetIPInterface (name svmName : string)
  : M W (option IPInterfaceGetDataModelONTAP * error) :=
  let api := "network/ip/interfaces" in
  let query := NewQuery in
  let query := query_Set "name" name query in
  let query :=
    if decide (svmName = "") then
      query_Set "scope" "cluster" query
    else
      query_Set "scope" "svm" (query_Set "svm.name" svmName query) in
  let query := query_Fields ["name"; "svm.name"; "ip"; "scope"] query in
  '(statusCode, response, err) ← r_GetNilOrOneRecord api (Some query) None;
  let err :=
    match err, response with
    | None, None => Some (Errorf "no response for GET %s" [OString api])
    | _, _ => err
    end in
  match err with
  | Some err =>
      e ← MakeAndReportError "error reading ip_interface info"
            (Sprintf "error on GET %s: %s, statusCode %d"
                     [OString api; OError err; OInt statusCode]);
      mret (None, e)
  | None =>
      match Decode response with
      | inr err =>
          e ← MakeAndReportError
                (Sprintf "failed to decode response from GET %s" [OString api])
                (Sprintf "error: %s, statusCode %d, response %#v"
                         [OError err; OInt statusCode; OMap response]);
          mret (None, e)
      | inl dataONTAP =>
          tflog_Debug (Sprintf "Read ip_interface data source: %#v" [OGet dataONTAP]);;
          mret (Some dataONTAP, None)
      end
  end.

(** The loop of [GetIPInterfaces] over the records of the response:
    [inl] is the slice built when the loop runs to its end, [inr] the
    error of the [return nil, ...] inside the loop. *)
Fixpoint decode_records (api : string) (statusCode : Z) (response : list gomap)
    (dataONTAP : slice IPInterfaceGetDataModelONTAP)
  : M W (slice IPInterfaceGetDataModelONTAP + error) :=
  match response with
  | [] => mret (inl dataONTAP)
  | info :: response =>
      match Decode info with
      | inr err =>
          e ← MakeAndReportError
                (Sprintf "failed to decode response from GET %s" [OString api])
                (Sprintf "error: %s, statusCode %d, info %#v"
                         [OError err; OInt statusCode; OMap info]);
          mret (inr e)
      | inl record =>
          decode_records api statusCode response (append dataONTAP record)
      end
  end.

(** GetIPInterfaces to get ip_interface info for all resources matching a filter *)
Definition GetIPInterfaces (filter : option IPInterfaceGetDataModelONTAP)
  : M W (slice IPInterfaceGetDataModelONTAP * error) :=
  let api := "network/ip/interfaces" in
  let query := NewQuery in
  let query := query_Fields ["name"; "svm.name"; "ip"; "scope"] query in
  let after_filter (query : RestQuery) :=
    '(statusCode, response, err) ← r_GetZeroOrMoreRecords api (Some query) None;
    let err :=
      match err, response with
      | None, None => Some (Errorf "no response for GET %s" [OString api])
      | _, _ => err
      end in
    match err with
    | Some err =>
        e ← MakeAndReportError "error reading ip_interfaces info"
              (Sprintf "error on GET %s: %s, statusCode %d"
                       [OString api; OError err; OInt statusCode]);
        mret (None, e)
    | None =>
        looped ← decode_records api statusCode (elems response) None;
        match looped with
        | inr e => mret (None, e)
        | inl dataONTAP =>
            tflog_Debug (Sprintf "Read ip_interface data source: %#v" [OGets dataONTAP]);;
            mret (dataONTAP, None)
        end
    end in
  match filter with
  | Some f =>
      match Decode f with
      | inr err =>
          e ← MakeAndReportError "error encoding ip_interface filter info"
                (Sprintf "error on filter %#v: %s" [OGetPtr filter; OError err]);
          mret (None, e)
      | inl filterMap => after_filter (query_SetValues filterMap query)
      end
  | None => after_filter query
  end.

(** CreateIPInterface to create ip_interface *)
Definition CreateIPInterface (body : IPInterfaceResourceBodyDataModelONTAP)
  : M W (option IPInterfaceGetDataModelONTAP * error) :=
  let api := "network/ip/interfaces" in
  match Decode body with
  | inr err =>
      e ← MakeAndReportError "error encoding ip_interface body"
            (Sprintf "error on encoding %s body: %s, body: %#v"
                     [OString api; OError err; OBody body]);
      mret (None, e)
  | inl bodyMap =>
      let query := NewQuery in
      let query := query_Add "return_records" "true" query in
      '(statusCode, response, err) ← r_CallCreateMethod api (Some query) bodyMap;
      match err with
      | Some err =>
          e ← MakeAndReportError "error creating ip_interface"
                (Sprintf "error on POST %s: %s, statusCode %d"
                         [OString api; OError err; OInt statusCode]);
          mret (None, e)
      | None =>
          first ← lift (index (Records response) 0);
          match Decode first with
          | inr err =>
              e ← MakeAndReportError "error decoding ip_interface info"
                    (Sprintf
                       "error on decode storage/ip_interfaces info: %s, statusCode %d, response %#v"
                       [OError err; OInt statusCode; OResponse response]);
              mret (None, e)
          | inl dataONTAP =>
              tflog_Debug (Sprintf "Create ip_interface source - udata: %#v" [OGet dataONTAP]);;
              mret (Some dataONTAP, None)
          end
      end
  end.

(** DeleteIPInterface to delete ip_interface *)
Definition DeleteIPInterface (uuid : string) : M W error :=
  let api := "network/ip/interfaces" in
  '(statusCode, _, err) ← r_CallDeleteMethod (api +:+ "/" +:+ uuid) None None;
  match err with
  | Some err =>
      MakeAndReportError "error deleting ip_interface"
        (Sprintf "error on DELETE %s: %s, statusCode %d"
                 [OString api; OError err; OInt statusCode])
  | None => mret None
  end.
End adapter.

(** ** mapstructure on the data models of this file

    [mapstructure.Decode] is reflective; here it is written out for the
    three uses the adapter makes of it, following the [mapstructure] tags
    of the structs. *)
Module mapstructure.

(** *** Struct to map

    Every tagged field becomes a key; a field tagged [omitempty] is left
    out when it is empty (a nil pointer); a struct, or a pointer to one,
    becomes a map of its own. A field that is not tagged [omitempty] is
    written whatever its value. *)

Definition of_Get (d : IPInterfaceGetDataModelONTAP) : gmap string value :=
  {[ "name" := VString (Name d);
     "scope" := VString (Scope d);
     "svm.name" := VString (SVMName d);
     "uuid" := VString (UUID d) ]}.

Definition of_Vserver (v : Vserver) : gmap string value :=
  {[ "name" := VString (vserver_Name v) ]}.

Definition of_IP (ip : IPInterfaceResourceIP) : gmap string value :=
  {[ "address" := VString (Address ip);
     "netmask" := VInt (Netmask ip) ]}.

Definition of_HomeNode (n : IPInterfaceResourceHomeNode) : gmap string value :=
  {[ "name" := VString (node_Name n) ]}.

Definition of_HomePort (p : IPInterfaceResourceHomePort) : gmap string value :=
  {[ "name" := VString (port_Name p);
     "node" := VMap (of_HomeNode (Node p)) ]}.

Definition of_Location (l : IPInterfaceResourceLocation) : gmap string value :=
  let m : gmap string value := ∅ in
  let m := match HomeNode l with
           | Some n => <["home_node" := VMap (of_HomeNode n)]> m
           | None => m
           end in
  let m := match HomePort l with
           | Some p => <["home_port" := VMap (of_HomePort p)]> m
           | None => m
           end in
  m.

Definition of_Body (b : IPInterfaceResourceBodyDataModelONTAP) : gmap string value :=
  {[ "name" := VString (body_Name b);
     "svm" := VMap (of_Vserver (SVM b));
     "ip" := VMap (of_IP (IP b));
     "location" := VMap (of_Location (Location b)) ]}.

(** *** Map to struct *)

(** An ASCII letter in lower case. *)
Definition to_lower (c : ascii) : ascii :=
  let n := nat_of_ascii c in
  if (65 <=? n)%nat && (n <=? 90)%nat then ascii_of_nat (n + 32) else c.

Fixpoint lower (s : string) : string :=
  match s with
  | EmptyString => EmptyString
  | String c s => String (to_lower c) (lower s)
  end.

(** What is left of [s] after the prefix [p]. *)
Fixpoint strip_prefix (p s : string) : option string :=
  match p, s with
  | EmptyString, _ => Some s
  | String a p, String b s => if decide (a = b) then strip_prefix p s else None
  | String _ _, EmptyString => None
  end.

(** The runes outside ASCII that fold onto an ASCII letter, in UTF-8: the
    Kelvin sign U+212A onto [k], the long s U+017F onto [s]. *)
Definition kelvin_sign : string :=
  String "226" (String "132" (String "170" EmptyString)).
Definition long_s : string := String "197" (String "191" EmptyString).

(** What is left of [s] after a rune outside ASCII that folds onto the
    lower-case letter [c]. *)
Definition folds_onto (c : ascii) (s : string) : option string :=
  if decide (c = "k"%char) then strip_prefix kelvin_sign s
  else if decide (c = "s"%char) then strip_prefix long_s s
  else None.

(** [strings.EqualFold(s, t)], equality under Unicode simple case folding,
    for a [t] of ASCII characters, as the tags are: a character of [t] is
    matched by itself, by its other case, and for [k] and [s] by the Kelvin
    sign and the long s. *)
Fixpoint EqualFold (s t : string) : bool :=
  match t with
  | EmptyString => match s with EmptyString => true | _ => false end
  | String c t =>
      match s with
      | EmptyString => false
      | String b s' =>
          if decide (to_lower b = to_lower c) then EqualFold s' t
          else match folds_onto (to_lower c) s with
               | Some s' => EqualFold s' t
               | None => false
               end
      end
  end.

(** Go ranges over a map in an order of its own, which may change from one
    range to the next: [met_first] stands for that order, as the position,
    among the entries a range is looking for, of the one it meets first. *)
Class MapRange := met_first : list (string * value) → nat.

(** The entry for a field: the key that is the field's name, and when
    there is none a key that equals it up to case, the first one the range
    over the map meets. *)
Definition lookup_field {range : MapRange} (m : gmap string value)
    (fieldName : string) : option value :=
  match m !! fieldName with
  | Some v => Some v
  | None =>
      let matching :=
        map_to_list (filter (λ kv : string * value, EqualFold kv.1 fieldName) m) in
      snd <$> matching !! (met_first matching `mod` length matching)
  end.

(** A string field: no entry, or a nil one, leaves the field as it is
    (zero); a string sets it; anything else is an error. *)
Definition decode_string (name : string) (input : option value) : string + gostring :=
  match input with
  | None | Some VNil => inl ""
  | Some (VString s) => inl s
  | Some v =>
      inr (Sprintf "'%s' expected type '%s', got unconvertible type '%s', value: '%v'"
                   [OString name; OString "string"; OTypeOf v; OValue v])
  end.

(** The errors of the fields that did not decode. *)
Definition errors_of (fields : list (string + gostring)) : list gostring :=
  omap (λ f, match f with inl _ => None | inr e => Some e end) fields.

(** All the fields are decoded, and their errors collected. *)
Definition to_Get {range : MapRange} (input : gomap)
  : IPInterfaceGetDataModelONTAP + goerror :=
  let m := entries input in
  let name := decode_string "name" (lookup_field m "name") in
  let scope := decode_string "scope" (lookup_field m "scope") in
  let svmName := decode_string "svm.name" (lookup_field m "svm.name") in
  let uuid := decode_string "uuid" (lookup_field m "uuid") in
  match name, scope, svmName, uuid with
  | inl name, inl scope, inl svmName, inl uuid =>
      inl {| Name := name; Scope := scope; SVMName := svmName; UUID := uuid |}
  | _, _, _, _ => inr (DecodeErrors (errors_of [name; scope; svmName; uuid]))
  end.

(** The three uses of [mapstructure.Decode] in the adapter. Flattening a
    struct of these types into a map has no way to fail. *)
Definition filter_to_map : Decoder IPInterfaceGetDataModelONTAP gomap :=
  λ filter, inl (Some (of_Get filter)).

Definition body_to_map : Decoder IPInterfaceResourceBodyDataModelONTAP gomap :=
  λ body, inl (Some (of_Body body)).

Definition map_to_record {range : MapRange}
  : Decoder gomap IPInterfaceGetDataModelONTAP := to_Get.

End mapstructure.

(** ** REST clients to run the adapter against *)

(** A client that answers every call from a script, whatever is asked. *)
Module scripted.

Record script := {
  one : Z * gomap * error;
  many : Z * slice gomap * error;
  created : Z * RestResponse * error;
  deleted : Z * RestResponse * error;
}.

Definition client : RestClient script := {|
  GetNilOrOneRecord _ _ _ s := (one s, s);
  GetZeroOrMoreRecords _ _ _ s := (many s, s);
  CallCreateMethod _ _ _ s := (created s, s);
  CallDeleteMethod _ _ _ s := (deleted s, s);
|}.

End scripted.

(** A client in front of a remote system kept in memory. The REST client
    and the remote system are not part of this file: the four methods
    follow what the spec says of them. *)
Module server.

(** The interfaces of the remote system, as the records it returns, and the
    number of identifiers issued so far. *)
Record store := {
  interfaces : list (gmap string value);
  issued : nat;
}.

(** The segments of a dotted path such as [svm.name]; [seg] is the segment
    read so far. *)
Fixpoint split_dots (seg s : string) : list string :=
  match s with
  | EmptyString => [seg]
  | String c s =>
      if decide (c = "."%char) then seg :: split_dots EmptyString s
      else split_dots (seg +:+ String c EmptyString) s
  end.

(** What a value holds at the end of a path through its nested objects. *)
Fixpoint lookup_path (path : list string) (v : value) : option value :=
  match path with
  | [] => Some v
  | seg :: path =>
      match v with
      | VMap m => m !! seg ≫= lookup_path path
      | _ => None
      end
  end.

(** The field of a record a query parameter names: the entry under the
    key, or what the record holds at the end of the key read as a path. *)
Definition field_of (rec : gmap string value) (key : string) : option value :=
  match rec !! key with
  | Some v => Some v
  | None => lookup_path (split_dots EmptyString key) (VMap rec)
  end.

(** A record satisfies a parameter of the query when it has the value
    asked for in the field; [fields] and [return_records] select nothing. *)
Definition param_matches (rec : gmap string value) (key : string) (vals : list string) : bool :=
  if decide (key = "fields" ∨ key = "return_records") then true
  else match field_of rec key with
       | Some v => bool_decide (vals = [Sprint v])
       | None => false
       end.

Definition matches (query : option RestQuery) (rec : gmap string value) : bool :=
  forallb (λ kv, param_matches rec kv.1 kv.2) (map_to_list (default ∅ query)).

(** The record a path [network/ip/interfaces/{identifier}] addresses. *)
Definition addressed (baseURL : string) (rec : gmap string value) : bool :=
  match rec !! "uuid" with
  | Some (VString uuid) => bool_decide (baseURL = "network/ip/interfaces/" +:+ uuid)
  | _ => false
  end.

(** The [name] of a nested object such as [svm: {name}]. *)
Definition nested_name (v : option value) : string :=
  match v with
  | Some (VMap m) => match m !! "name" with Some (VString n) => n | _ => "" end
  | _ => ""
  end.

(** Modelled from the spec: the get exactly zero-or-one record call, which
    returns a status code, a single object or nil, and an error: nil when
    no record matches, and an error when several do. *)
Definition get_one (baseURL : string) (query : option RestQuery) (body : gomap)
    (s : store) : (Z * gomap * error) * store :=
  match List.filter (matches query) (interfaces s) with
  | [] => ((200%Z, None, None), s)
  | [rec] => ((200%Z, Some rec, None), s)
  | _ => ((200%Z, None,
           Some (Errorf "unexpected response for GET %s: more than one record"
                        [OString baseURL])), s)
  end.

(** Modelled from the spec: the get zero-or-more records call, which
    returns the matching records in the order the remote system holds
    them. *)
Definition get_many (baseURL : string) (query : option RestQuery) (body : gomap)
    (s : store) : (Z * slice gomap * error) * store :=
  ((200%Z, Some (Some <$> List.filter (matches query) (interfaces s)), None), s).

(** Modelled from the spec: the create call, which provisions a new
    resource under an identifier assigned by the remote system and returns
    the created record representation in the records collection of the
    response, in the wire shape of the body: [name], [svm: {name}] and
    [ip: {address, netmask}], with the identifier and the scope. *)
Definition create (baseURL : string) (query : option RestQuery) (body : gomap)
    (s : store) : (Z * RestResponse * error) * store :=
  match entries body !! "name" with
  | Some (VString name) =>
      let svm := nested_name (entries body !! "svm") in
      let rec : gmap string value :=
        {[ "name" := VString name;
           "scope" := VString (if decide (svm = "") then "cluster" else "svm");
           "svm" := default VNil (entries body !! "svm");
           "uuid" := VString ("uuid-" +:+ pretty (issued s));
           "ip" := default VNil (entries body !! "ip") ]} in
      ((201%Z, {| Records := Some [Some rec] |}, None),
       {| interfaces := interfaces s ++ [rec]; issued := S (issued s) |})
  | _ =>
      ((400%Z, {| Records := None |},
        Some (Errorf "POST %s: a name is required" [OString baseURL])), s)
  end.

(** Modelled from the spec: the delete call, addressed by identifier: the
    resource ceases to exist, and an identifier that addresses nothing is an
    error with a status that is not 2xx. *)
Definition delete (baseURL : string) (query : option RestQuery) (body : gomap)
    (s : store) : (Z * RestResponse * error) * store :=
  if existsb (addressed baseURL) (interfaces s) then
    ((200%Z, {| Records := None |}, None),
     {| interfaces := List.filter (λ rec, negb (addressed baseURL rec)) (interfaces s);
        issued := issued s |})
  else
    ((404%Z, {| Records := None |},
      Some (Errorf "DELETE %s: entry doesn't exist" [OString baseURL])), s).

Definition client : RestClient store := {|
  GetNilOrOneRecord := get_one;
  GetZeroOrMoreRecords := get_many;
  CallCreateMethod := create;
  CallDeleteMethod := delete;
|}.

End server.

(** ** Notions used in the statements *)

(** The state an operation starts in: nothing called, reported or logged. *)
Definition start {W} (w : W) : state W := State w [] [] [].

(** The query of [GetIPInterface], written out. *)
Definition get_one_query (name svmName : string) : RestQuery :=
  if decide (svmName = "") then
    {[ "name" := [name];
       "scope" := ["cluster"];
       "fields" := ["name,svm.name,ip,scope"] ]}
  else
    {[ "name" := [name];
       "svm.name" := [svmName];
       "scope" := ["svm"];
       "fields" := ["name,svm.name,ip,scope"] ]}.

(** The query of [GetIPInterfaces] for a filter: the field selection alone
    for the nil filter, and with the entries of the flattened filter
    assigned for a filter that could be flattened. *)
Inductive filter_query {encode_filter : Decoder IPInterfaceGetDataModelONTAP gomap}
  : option IPInterfaceGetDataModelONTAP → RestQuery → Prop :=
| nil_filter_query :
    filter_query None (query_Fields ["name"; "svm.name"; "ip"; "scope"] NewQuery)
| flattened_filter_query (f : IPInterfaceGetDataModelONTAP) (filterMap : gomap) :
    Decode f = inl filterMap →
    filter_query (Some f)
      (query_SetValues filterMap (query_Fields ["name"; "svm.name"; "ip"; "scope"] NewQuery)).

(** A record that does not decode onto the read model. *)
Definition undecodable {decode_record : Decoder gomap IPInterfaceGetDataModelONTAP}
    (info : gomap) : Prop :=
  ∃ e, decode_record info = inr e.

(** The error [e] an operation returned from [st] to [st'] went through the
    error handler: a nil error reported nothing, and an error is the
    diagnostic the handler made of a summary and a detail and reported
    last. *)
Definition through_handler {W} (st st' : state W) (e : error) : Prop :=
  match e with
  | None => diagnostics st' = diagnostics st
  | Some err =>
      ∃ summary detail,
        err = Diagnostic summary detail
        ∧ diagnostics st' = diagnostics st ++ [(summary, detail)]
  end.

(** A response without its [ip] entry. *)
Definition without_ip (response : gomap) : gomap := delete "ip" <$> response.

(** The records of a response without their [ip] entries. *)
Definition records_without_ip (response : slice gomap) : slice gomap :=
  match response with
  | Some records => Some (without_ip <$> records)
  | None => None
  end.

(** ** Inputs used in the examples *)

(** [{name: "lif1", svm: "vs1", ip: {address: "10.0.0.5", netmask: 24}}],
    no placement. *)
Definition lif1_body : IPInterfaceResourceBodyDataModelONTAP := {|
  body_Name := "lif1";
  SVM := {| vserver_Name := "vs1" |};
  IP := {| Address := "10.0.0.5"; Netmask := 24 |};
  Location := {| HomeNode := None; HomePort := None |};
|}.

(** The filter [{Name: "lif1"}], its other fields zero. *)
Definition lif1_filter : IPInterfaceGetDataModelONTAP :=
  {| Name := "lif1"; Scope := ""; SVMName := ""; UUID := "" |}.

(** The record of [lif1], its container flattened under the key
    [svm.name]. *)
Definition lif1_record : gmap string value :=
  {[ "name" := VString "lif1";
     "scope" := VString "svm";
     "svm.name" := VString "vs1";
     "uuid" := VString "uuid-0";
     "ip" := VMap {[ "address" := VString "10.0.0.5"; "netmask" := VInt 24 ]} ]}.

(** A remote system that holds [lif1] and nothing else. *)
Definition lif1_store : server.store :=
  {| server.interfaces := [lif1_record]; server.issued := 1 |}.

(** A remote system that holds no interface. *)
Definition empty_store : server.store :=
  {| server.interfaces := []; server.issued := 0 |}.

(** A client scripted to answer every read with the record of [lif1]. *)
Definition lif1_script : scripted.script := {|
  scripted.one := (200%Z, Some lif1_record, None);
  scripted.many := (200%Z, Some [Some lif1_record], None);
  scripted.created := (201%Z, {| Records := Some [Some lif1_record] |}, None);
  scripted.deleted := (200%Z, {| Records := None |}, None);
|}.

(** The same, with another address and netmask for [lif1]. *)
Definition lif1_moved_script : scripted.script :=
  let moved : gmap string value :=
    <["ip" := VMap {[ "address" := VString "192.168.7.9"; "netmask" := VInt 16 ]}]>
      lif1_record in
  {|
    scripted.one := (200%Z, Some moved, None);
    scripted.many := (200%Z, Some [Some moved], None);
    scripted.created := (201%Z, {| Records := Some [Some moved] |}, None);
    scripted.deleted := (200%Z, {| Records := None |}, None);
  |}.

(** A client scripted to answer a create with success and no record. *)
Definition no_record_script : scripted.script := {|
  scripted.one := (200%Z, None, None);
  scripted.many := (200%Z, Some [], None);
  scripted.created := (201%Z, {| Records := Some [] |}, None);
  scripted.deleted := (200%Z, {| Records := None |}, None);
|}.

(** A client scripted to answer a create with success and a nil records
    collection. *)
Definition nil_records_script : scripted.script := {|
  scripted.one := (200%Z, None, None);
  scripted.many := (200%Z, None, None);
  scripted.created := (201%Z, {| Records := None |}, None);
  scripted.deleted := (200%Z, {| Records := None |}, None);
|}.

(** A client scripted to answer the multi-record GET with the record of
    [lif1] followed by a record whose name is a number. *)
Definition bad_record_script : scripted.script := {|
  scripted.one := (200%Z, Some lif1_record, None);
  scripted.many := (200%Z, Some [Some lif1_record; Some {[ "name" := VInt 7 ]}], None);
  scripted.created := (201%Z, {| Records := Some [Some lif1_record] |}, None);
  scripted.deleted := (200%Z, {| Records := None |}, None);
|}.

(** ** Notions and inputs used in the further properties *)

(** The zero value of the read model. *)
Definition zero_record : IPInterfaceGetDataModelONTAP :=
  {| Name := ""; Scope := ""; SVMName := ""; UUID := "" |}.

(** A history that kept what it had and grew by one entry at most. *)
Definition grew_by_at_most_one {A} (before after : list A) : Prop :=
  after = before ∨ ∃ x, after = before ++ [x].

(** From [st] to [st'] there was one round at most: one call to the client,
    one diagnostic, one debug line, and nothing earlier was lost. *)
Definition one_round {W} (st st' : state W) : Prop :=
  grew_by_at_most_one (calls st) (calls st')
  ∧ grew_by_at_most_one (diagnostics st) (diagnostics st')
  ∧ grew_by_at_most_one (debuglog st) (debuglog st').

(** A value that is neither nil nor a string. *)
Definition not_a_string (v : value) : Prop :=
  match v with
  | VNil | VString _ => False
  | _ => True
  end.

(** A map none of whose keys is, under [strings.EqualFold], the tag of a
    field of the read model. *)
Definition carries_no_field (m : gmap string value) : Prop :=
  ∀ key, is_Some (m !! key) →
    ∀ tag, tag ∈ ["name"; "scope"; "svm.name"; "uuid"] →
      mapstructure.EqualFold key tag = false.

(** A map in which no two keys are, under [strings.EqualFold], the tag of
    the same field of the read model. *)
Definition collision_free (m : gmap string value) : Prop :=
  ∀ key1 key2 tag,
    is_Some (m !! key1) → is_Some (m !! key2) →
    tag ∈ ["name"; "scope"; "svm.name"; "uuid"] →
    mapstructure.EqualFold key1 tag = true →
    mapstructure.EqualFold key2 tag = true →
    key1 = key2.

(** A range over a map that meets first the first of the entries it is
    looking for, in the order of [map_to_list]. *)
Definition in_key_order : mapstructure.MapRange := λ _, 0.

(** A range over a map that meets first the last of them. *)
Definition in_reverse_key_order : mapstructure.MapRange :=
  λ matching, pred (length matching).

(** A query with the parameter [key] set to a field that is not empty, and
    left alone by an empty one. *)
Definition constrained (key field : string) (query : RestQuery) : RestQuery :=
  if decide (field = "") then query else <[key := [field]]> query.

(** A client scripted to fail every call with a transport error, while
    handing back responses all the same. *)
Definition down_script : scripted.script :=
  let refused := Some (Errorf "connection refused" []) in
  {|
    scripted.one := (503%Z, Some lif1_record, refused);
    scripted.many := (503%Z, Some [Some {[ "name" := VInt 7 ]}], refused);
    scripted.created := (503%Z, {| Records := Some [] |}, refused);
    scripted.deleted := (503%Z, {| Records := None |}, refused);
  |}.

(** A client scripted to answer the multi-record GET with the record of
    [lif1], then two records that do not decode, then [lif1] again. *)
Definition two_bad_records_script : scripted.script := {|
  scripted.one := (200%Z, Some lif1_record, None);
  scripted.many :=
    (200%Z,
     Some [Some lif1_record; Some {[ "name" := VInt 7 ]};
           Some {[ "uuid" := VBool true ]}; Some lif1_record],
     None);
  scripted.created := (201%Z, {| Records := Some [Some lif1_record] |}, None);
  scripted.deleted := (200%Z, {| Records := None |}, None);
|}.

(** A client scripted to answer with objects that have an address and
    nothing else. *)
Definition address_only_script : scripted.script :=
  let object : gmap string value :=
    {[ "ip" := VMap {[ "address" := VString "10.0.0.5"; "netmask" := VInt 24 ]} ]} in
  {|
    scripted.one := (200%Z, Some object, None);
    scripted.many := (200%Z, Some [Some object], None);
    scripted.created := (201%Z, {| Records := Some [Some object] |}, None);
    scripted.deleted := (200%Z, {| Records := None |}, None);
  |}.

(** A body placed on a home node and a home port. *)
Definition placed_body : IPInterfaceResourceBodyDataModelONTAP := {|
  body_Name := "lif2";
  SVM := {| vserver_Name := "vs1" |};
  IP := {| Address := "10.0.0.6"; Netmask := 24 |};
  Location := {|
    HomeNode := Some {| node_Name := "node1" |};
    HomePort := Some {| port_Name := "e0c"; Node := {| node_Name := "node1" |} |};
  |};
|}.

(** The record of [lif1] as the reads return it. *)
Definition lif1_read : IPInterfaceGetDataModelONTAP :=
  {| Name := "lif1"; Scope := "svm"; SVMName := "vs1"; UUID := "uuid-0" |}.

(** A client scripted to answer the reads with records flattened by the
    tags of the read model. *)
Definition flattened_script : scripted.script := {|
  scripted.one := (200%Z, Some (mapstructure.of_Get lif1_read), None);
  scripted.many :=
    (200%Z,
     Some ((λ d, Some (mapstructure.of_Get d)) <$> [lif1_read; lif1_filter]),
     None);
  scripted.created := (201%Z, {| Records := None |}, None);
  scripted.deleted := (200%Z, {| Records := None |}, None);
|}.

(** A client scripted to answer the single-record GET with a record whose
    name is a number. *)
Definition wrong_name_script : scripted.script := {|
  scripted.one :=
    (200%Z, Some {[ "name" := VInt 7; "uuid" := VString "uuid-9" ]}, None);
  scripted.many := (200%Z, Some [], None);
  scripted.created := (201%Z, {| Records := None |}, None);
  scripted.deleted := (200%Z, {| Records := None |}, None);
|}.

(** The record of [lif1] in the wire shape, its container nested as
    [svm: {name}]. *)
Definition lif1_wire_record : gmap string value :=
  {[ "name" := VString "lif1";
     "scope" := VString "svm";
     "svm" := VMap {[ "name" := VString "vs1" ]};
     "uuid" := VString "uuid-0";
     "ip" := VMap {[ "address" := VString "10.0.0.5"; "netmask" := VInt 24 ]} ]}.

(** A record with two keys that are [name] up to case. *)
Definition two_names_record : gmap string value :=
  {[ "NAME" := VString "lif1"; "Name" := VString "lif2" ]}.

(** A client scripted to answer the single-record GET with that record. *)
Definition two_names_script : scripted.script := {|
  scripted.one := (200%Z, Some two_names_record, None);
  scripted.many := (200%Z, Some [], None);
  scripted.created := (201%Z, {| Records := None |}, None);
  scripted.deleted := (200%Z, {| Records := None |}, None);
|}.

(** * Properties *)

(** Closes the description of an outcome once the operation has run. *)
Ltac settle :=
  cbn; repeat (split; [by (eauto || naive_solver)|]); by (eauto || naive_solver).

(** Unfolds one step of an operation. *)
Ltac step :=
  unfold r_GetNilOrOneRecord, r_GetZeroOrMoreRecords, r_CallCreateMethod,
    r_CallDeleteMethod, perform, MakeAndReportError, tflog_Debug, lift,
    mbind, M_bind, mret, M_ret;
  cbn beta iota.

Section adapter_properties.
Context {W : Type} {r : RestClient W}.
Context {encode_filter : Decoder IPInterfaceGetDataModelONTAP gomap}.
Context {encode_body : Decoder IPInterfaceResourceBodyDataModelONTAP gomap}.
Context {decode_record : Decoder gomap IPInterfaceGetDataModelONTAP}.

(** The query [GetIPInterface] builds is [get_one_query]. *)
Lemma get_one_query_built (name svmName : string) :
  query_Fields ["name"; "svm.name"; "ip"; "scope"]
    (if decide (svmName = "") then
       query_Set "scope" "cluster" (query_Set "name" name NewQuery)
     else
       query_Set "scope" "svm"
         (query_Set "svm.name" svmName (query_Set "name" name NewQuery)))
  = get_one_query name svmName.
Proof.
  unfold get_one_query. destruct (decide (svmName = "")); vm_compute; reflexivity.
Qed.

(** [GetIPInterface] makes one call, a single-record GET with that query. *)
Lemma GetIPInterface_calls (name svmName : string) (st : state W) :
  calls (GetIPInterface name svmName st).2
  = calls st ++ [CallGetNilOrOneRecord "network/ip/interfaces"
                   (Some (get_one_query name svmName)) None].
Proof.
  unfold GetIPInterface. rewrite get_one_query_built. step.
  destruct (GetNilOrOneRecord _ _ _ _) as [[[statusCode response] err] w].
  destruct err as [err|]; [reflexivity|].
  destruct response as [m|]; [|reflexivity].
  simpl. destruct (Decode (Some m)); reflexivity.
Qed.

(** What [GetIPInterface] returns, by the answer of the client. *)
Lemma GetIPInterface_answer (name svmName : string) (st : state W)
    statusCode response err w :
  GetNilOrOneRecord "network/ip/interfaces" (Some (get_one_query name svmName)) None
    (remote st) = ((statusCode, response, err), w) →
  (GetIPInterface name svmName st).1 =
    match err, response with
    | Some err, _ =>
        Returns (None, Some (Diagnostic "error reading ip_interface info"
          (Sprintf "error on GET %s: %s, statusCode %d"
             [OString "network/ip/interfaces"; OError err; OInt statusCode])))
    | None, None =>
        Returns (None, Some (Diagnostic "error reading ip_interface info"
          (Sprintf "error on GET %s: %s, statusCode %d"
             [OString "network/ip/interfaces";
              OError (Errorf "no response for GET %s" [OString "network/ip/interfaces"]);
              OInt statusCode])))
    | None, Some m =>
        match Decode (Some m) with
        | inl dataONTAP => Returns (Some dataONTAP, None)
        | inr err =>
            Returns (None, Some (Diagnostic
              (Sprintf "failed to decode response from GET %s"
                 [OString "network/ip/interfaces"])
              (Sprintf "error: %s, statusCode %d, response %#v"
                 [OError err; OInt statusCode; OMap (Some m)])))
        end
    end.
Proof.
  intros Hcall. unfold GetIPInterface. rewrite get_one_query_built. step.
  rewrite Hcall.
  destruct err as [err|]; [reflexivity|].
  destruct response as [m|]; [|reflexivity].
  simpl. destruct (Decode (Some m)); reflexivity.
Qed.

(** C4. Whenever [GetNilOrOneRecord] answers a nil response with a nil
    error, [GetIPInterface] returns a nil result with the diagnostic error
    "error reading ip_interface info"; and whatever the client answers,
    [GetIPInterface] never returns a nil result with a nil error. *)
Theorem GetIPInterface_nil_response_is_error (name svmName : string) (st : state W) :
  (∀ statusCode w,
     GetNilOrOneRecord "network/ip/interfaces" (Some (get_one_query name svmName)) None
       (remote st) = ((statusCode, None, None), w) →
     (GetIPInterface name svmName st).1 =
       Returns (None, Some (Diagnostic "error reading ip_interface info"
         (Sprintf "error on GET %s: %s, statusCode %d"
            [OString "network/ip/interfaces";
             OError (Errorf "no response for GET %s" [OString "network/ip/interfaces"]);
             OInt statusCode]))))
  ∧ (GetIPInterface name svmName st).1 ≠ Returns (None, None).
Proof.
  split.
  - intros statusCode w Hcall. by rewrite (GetIPInterface_answer _ _ _ _ _ _ _ Hcall).
  - destruct (GetNilOrOneRecord "network/ip/interfaces"
                (Some (get_one_query name svmName)) None (remote st))
      as [[[statusCode response] err] w] eqn:Hcall.
    rewrite (GetIPInterface_answer _ _ _ _ _ _ _ Hcall).
    destruct err as [err|]; [discriminate|].
    destruct response as [m|]; [|discriminate].
    destruct (Decode (Some m)); discriminate.
Qed.

(** What [DeleteIPInterface] does, by the answer of the client. *)
Lemma DeleteIPInterface_answer (uuid : string) (st : state W) statusCode response err w :
  CallDeleteMethod ("network/ip/interfaces" +:+ "/" +:+ uuid) None None (remote st)
    = ((statusCode, response, err), w) →
  DeleteIPInterface uuid st =
    let called := calls st ++ [CallDelete ("network/ip/interfaces" +:+ "/" +:+ uuid) None None] in
    match err with
    | Some err =>
        let summary : gostring := "error deleting ip_interface" in
        let detail := Sprintf "error on DELETE %s: %s, statusCode %d"
                        [OString "network/ip/interfaces"; OError err; OInt statusCode] in
        (Returns (Some (Diagnostic summary detail)),
         State w called (diagnostics st ++ [(summary, detail)]) (debuglog st))
    | None => (Returns None, State w called (diagnostics st) (debuglog st))
    end.
Proof.
  intros Hcall. unfold DeleteIPInterface. step. rewrite Hcall.
  destruct err; reflexivity.
Qed.

(** C2. When the body has been flattened and the create call of the client
    succeeds (nil error) with an empty records collection,
    [CreateIPInterface] does not return: taking [response.Records[0]]
    panics with an index out of range, and no diagnostic is reported. *)
Theorem CreateIPInterface_empty_records_panics
    (body : IPInterfaceResourceBodyDataModelONTAP) (st : state W)
    bodyMap statusCode response w :
  Decode body = inl bodyMap →
  CallCreateMethod "network/ip/interfaces"
    (Some (query_Add "return_records" "true" NewQuery)) bodyMap (remote st)
    = ((statusCode, response, None), w) →
  len (Records response) = 0 →
  (CreateIPInterface body st).1 = Panics (IndexOutOfRange 0 0)
  ∧ diagnostics (CreateIPInterface body st).2 = diagnostics st.
Proof.
  intros Hbody Hcall Hlen. unfold CreateIPInterface. rewrite Hbody. step.
  rewrite Hcall. unfold index. rewrite Hlen.
  unfold len in Hlen. apply nil_length_inv in Hlen. rewrite Hlen. done.
Qed.

(** The loop of [GetIPInterfaces], when every record decodes: the slice
    grows by the decoded records, in their order, and stays as it was when
    there is no record. *)
Lemma decode_records_all api statusCode (infos : list gomap)
    (ds : list IPInterfaceGetDataModelONTAP) :
  Forall2 (λ info d, Decode info = inl d) infos ds →
  ∀ (dataONTAP : slice IPInterfaceGetDataModelONTAP) (st : state W),
    decode_records api statusCode infos dataONTAP st =
      (Returns (inl (match ds with
                     | [] => dataONTAP
                     | _ => Some (elems dataONTAP ++ ds)
                     end)), st).
Proof.
  induction 1 as [|info d infos ds Hd _ IH]; intros dataONTAP st; [reflexivity|].
  cbn [decode_records]. rewrite Hd, IH. unfold append. cbn [elems default id].
  destruct ds; [reflexivity|]. by rewrite <- app_assoc.
Qed.

(** The loop of [GetIPInterfaces], when some record does not decode: the
    loop ends in the diagnostic of the first such record. *)
Lemma decode_records_some_fails api statusCode (infos : list gomap) :
  Exists undecodable infos →
  ∀ (dataONTAP : slice IPInterfaceGetDataModelONTAP) (st : state W),
    ∃ detail,
      let summary := Sprintf "failed to decode response from GET %s" [OString api] in
      decode_records api statusCode infos dataONTAP st =
        (Returns (inr (Some (Diagnostic summary detail))),
         State (remote st) (calls st) (diagnostics st ++ [(summary, detail)])
               (debuglog st)).
Proof.
  induction infos as [|info infos IH]; intros Hex dataONTAP st.
  - by apply Exists_nil in Hex.
  - cbn [decode_records]. destruct (Decode info) as [d|e] eqn:Hd.
    + apply Exists_cons in Hex as [[e He]|Hex]; [unfold Decode in Hd; congruence|].
      apply (IH Hex).
    + step. eauto.
Qed.

(** C5, as the code has it. For a filter that is nil or could be
    flattened, when the client answers the multi-record GET with a nil
    error: a nil records slice is reported as the diagnostic error "error
    reading ip_interfaces info"; a records slice that is not nil and whose
    records all decode gives a nil error and no diagnostic, with the nil
    slice when there is no record, and otherwise the decoded records in the
    order the client returned them. *)
Theorem GetIPInterfaces_decoded_in_order
    (filter : option IPInterfaceGetDataModelONTAP) (query : RestQuery)
    (st : state W) statusCode (response : slice gomap) w :
  filter_query filter query →
  GetZeroOrMoreRecords "network/ip/interfaces" (Some query) None (remote st)
    = ((statusCode, response, None), w) →
  match response with
  | None =>
      (GetIPInterfaces filter st).1 =
        Returns (None, Some (Diagnostic "error reading ip_interfaces info"
          (Sprintf "error on GET %s: %s, statusCode %d"
             [OString "network/ip/interfaces";
              OError (Errorf "no response for GET %s" [OString "network/ip/interfaces"]);
              OInt statusCode])))
  | Some infos =>
      ∀ ds, Forall2 (λ info d, Decode info = inl d) infos ds →
        (GetIPInterfaces filter st).1 =
          Returns (match ds with [] => None | _ => Some ds end, None)
        ∧ diagnostics (GetIPInterfaces filter st).2 = diagnostics st
  end.
Proof.
  intros Hquery Hcall.
  destruct Hquery as [|f filterMap Hf]; unfold GetIPInterfaces;
    rewrite ?Hf; step; rewrite Hcall;
    (destruct response as [infos|]; [|reflexivity]);
    intros ds Hds; cbn [elems default id];
    rewrite (decode_records_all _ _ _ _ Hds); by destruct ds.
Qed.

(** C6. For a filter that is nil or could be flattened, whenever some
    record of the response of the multi-record GET does not decode,
    [GetIPInterfaces] returns a nil result with a diagnostic error, which
    is the one diagnostic it reports: no record that decoded before the
    failure is returned. *)
Theorem GetIPInterfaces_decode_failure_discards_all
    (filter : option IPInterfaceGetDataModelONTAP) (query : RestQuery)
    (st : state W) statusCode (response : slice gomap) err w :
  filter_query filter query →
  GetZeroOrMoreRecords "network/ip/interfaces" (Some query) None (remote st)
    = ((statusCode, response, err), w) →
  Exists undecodable (elems response) →
  ∃ summary detail,
    (GetIPInterfaces filter st).1 = Returns (None, Some (Diagnostic summary detail))
    ∧ diagnostics (GetIPInterfaces filter st).2 = diagnostics st ++ [(summary, detail)].
Proof.
  intros Hquery Hcall Hex.
  destruct Hquery as [|f filterMap Hf]; unfold GetIPInterfaces;
    rewrite ?Hf; step; rewrite Hcall;
    (destruct err as [err|]; [by eauto|]);
    (destruct response as [infos|]; [|by eauto]);
    cbn [elems default id] in *;
    match goal with
    | |- context [decode_records ?api ?sc ?infos ?acc ?st0] =>
        destruct (decode_records_some_fails api sc infos Hex acc st0) as [detail ->]
    end; by eauto.
Qed.

(** C9. [GetIPInterface] makes one call, a single-record GET on
    [network/ip/interfaces] whose query has [name] set to the name and
    [fields] set to the projection [name,svm.name,ip,scope]; for the empty
    container the query has [scope=cluster] and no [svm.name], and nothing
    else; for a container that is not empty it has [svm.name] set to the
    container and [scope=svm], and nothing else. *)
Theorem GetIPInterface_query (name svmName : string) (st : state W) :
  let query := get_one_query name svmName in
  calls (GetIPInterface name svmName st).2
    = calls st ++ [CallGetNilOrOneRecord "network/ip/interfaces" (Some query) None]
  ∧ query !! "name" = Some [name]
  ∧ query !! "fields" = Some [Join ["name"; "svm.name"; "ip"; "scope"] ","]
  ∧ (svmName = "" →
       query !! "scope" = Some ["cluster"]
       ∧ query !! "svm.name" = None
       ∧ dom query = {[ "name"; "scope"; "fields" ]})
  ∧ (svmName ≠ "" →
       query !! "scope" = Some ["svm"]
       ∧ query !! "svm.name" = Some [svmName]
       ∧ dom query = {[ "name"; "svm.name"; "scope"; "fields" ]}).
Proof.
  intros query. split; [apply GetIPInterface_calls|].
  subst query. unfold get_one_query.
  destruct (decide (svmName = "")) as [Hc|Hc];
    (split; [reflexivity|]); (split; [reflexivity|]);
    (split; intros Hc'; [|]); try done;
    (split; [reflexivity|]); (split; [reflexivity|]);
    vm_compute; reflexivity.
Qed.

(** The loop of [GetIPInterfaces] calls nothing. *)
Lemma decode_records_calls api statusCode (infos : list gomap) :
  ∀ (dataONTAP : slice IPInterfaceGetDataModelONTAP) (st : state W),
    calls (decode_records api statusCode infos dataONTAP st).2 = calls st.
Proof.
  induction infos as [|info infos IH]; intros dataONTAP st; [reflexivity|].
  cbn [decode_records]. destruct (Decode info); [apply IH|reflexivity].
Qed.

(** [GetIPInterfaces] makes one call, a multi-record GET with the query of
    the filter. *)
Lemma GetIPInterfaces_calls (filter : option IPInterfaceGetDataModelONTAP)
    (query : RestQuery) (st : state W) :
  filter_query filter query →
  calls (GetIPInterfaces filter st).2
  = calls st ++ [CallGetZeroOrMoreRecords "network/ip/interfaces" (Some query) None].
Proof.
  intros Hquery.
  destruct Hquery as [|f filterMap Hf]; unfold GetIPInterfaces;
    rewrite ?Hf; step;
    destruct (GetZeroOrMoreRecords _ _ _ _) as [[[statusCode response] err] w];
    (destruct err as [err|]; [reflexivity|]);
    (destruct response as [infos|]; [|reflexivity]);
    cbn [elems default id];
    match goal with
    | |- context [decode_records ?api ?sc ?infos ?acc ?st0] =>
        pose proof (decode_records_calls api sc infos acc st0) as Hcalls;
        destruct (decode_records api sc infos acc st0) as [[[dataONTAP|e]|p] st']
    end; cbn in Hcalls |- *; exact Hcalls.
Qed.

(** [CreateIPInterface], once the body is flattened, makes one call, a
    create with [return_records=true] and the flattened body. *)
Lemma CreateIPInterface_calls (body : IPInterfaceResourceBodyDataModelONTAP)
    (bodyMap : gomap) (st : state W) :
  Decode body = inl bodyMap →
  calls (CreateIPInterface body st).2
  = calls st ++ [CallCreate "network/ip/interfaces"
                   (Some {[ "return_records" := ["true"] ]}) bodyMap].
Proof.
  intros Hbody. unfold CreateIPInterface. rewrite Hbody. step.
  destruct (CallCreateMethod _ _ _ _) as [[[statusCode response] err] w].
  destruct err as [err|]; [reflexivity|].
  destruct (index (Records response) 0) as [first|p]; [|reflexivity].
  destruct (Decode first); reflexivity.
Qed.

(** What [CreateIPInterface] returns when the create call succeeds and the
    first record decodes. *)
Lemma CreateIPInterface_first_record (body : IPInterfaceResourceBodyDataModelONTAP)
    (bodyMap : gomap) (st : state W) statusCode response w first dataONTAP :
  Decode body = inl bodyMap →
  CallCreateMethod "network/ip/interfaces"
    (Some (query_Add "return_records" "true" NewQuery)) bodyMap (remote st)
    = ((statusCode, response, None), w) →
  elems (Records response) !! 0 = Some first →
  Decode first = inl dataONTAP →
  (CreateIPInterface body st).1 = Returns (Some dataONTAP, None).
Proof.
  intros Hbody Hcall Hfirst Hdecode. unfold CreateIPInterface. rewrite Hbody. step.
  rewrite Hcall. unfold index. rewrite Hfirst, Hdecode. reflexivity.
Qed.

(** *** The shape of what the operations return

    Every return of [GetIPInterface], [GetIPInterfaces] and
    [DeleteIPInterface] carrying an error carries a nil result, and the
    error went through the error handler. [CreateIPInterface] is the same
    whenever it returns; it may also panic. *)

Lemma GetIPInterface_returns (name svmName : string) (st : state W) :
  ∃ result e,
    (GetIPInterface name svmName st).1 = Returns (result, e)
    ∧ (result = None ↔ e ≠ None)
    ∧ through_handler st (GetIPInterface name svmName st).2 e.
Proof.
  unfold GetIPInterface. step.
  destruct (GetNilOrOneRecord _ _ _ _) as [[[statusCode response] err] w].
  destruct err as [err|]; [|destruct response as [m|]; [destruct (Decode (Some m))|]];
    cbn; eexists _, _; (split; [reflexivity|]); (split; [naive_solver|]);
    cbn; eauto.
Qed.

Lemma decode_records_returns api statusCode (infos : list gomap) :
  ∀ (dataONTAP : slice IPInterfaceGetDataModelONTAP) (st : state W),
    ∃ looped st',
      decode_records api statusCode infos dataONTAP st = (Returns looped, st')
      ∧ match looped with
        | inl _ => diagnostics st' = diagnostics st
        | inr e => e ≠ None ∧ through_handler st st' e
        end.
Proof.
  induction infos as [|info infos IH]; intros dataONTAP st; cbn [decode_records].
  - by eexists (inl _), _.
  - destruct (Decode info) as [record|err]; [apply IH|].
    step. eexists (inr _), _. split; [reflexivity|]. cbn. eauto.
Qed.

Lemma GetIPInterfaces_returns (filter : option IPInterfaceGetDataModelONTAP)
    (st : state W) :
  ∃ result e,
    (GetIPInterfaces filter st).1 = Returns (result, e)
    ∧ (e ≠ None → result = None)
    ∧ through_handler st (GetIPInterfaces filter st).2 e.
Proof.
  unfold GetIPInterfaces.
  destruct filter as [f|]; [destruct (Decode f) as [filterMap|err]|]; step;
    try (eexists _, _; (split; [reflexivity|]); cbn; by eauto);
    destruct (GetZeroOrMoreRecords _ _ _ _) as [[[statusCode response] err] w];
    (destruct err as [err|];
       [eexists _, _; (split; [reflexivity|]); cbn; by eauto|]);
    (destruct response as [infos|];
       [|eexists _, _; (split; [reflexivity|]); cbn; by eauto]);
    match goal with
    | |- context [decode_records ?api ?sc ?infos ?acc ?st0] =>
        destruct (decode_records_returns api sc infos acc st0)
          as (looped & st' & -> & Hlooped)
    end;
    (destruct looped as [dataONTAP|e];
       [|destruct Hlooped as [He Hthrough]; destruct e as [e|]; [|done]]);
    cbn in *; eexists _, _; (split; [reflexivity|]); by eauto.
Qed.

Lemma DeleteIPInterface_returns (uuid : string) (st : state W) :
  ∃ e,
    (DeleteIPInterface uuid st).1 = Returns e
    ∧ through_handler st (DeleteIPInterface uuid st).2 e.
Proof.
  destruct (CallDeleteMethod ("network/ip/interfaces" +:+ "/" +:+ uuid) None None (remote st))
    as [[[statusCode response] err] w] eqn:Hcall.
  rewrite (DeleteIPInterface_answer _ _ _ _ _ _ Hcall).
  destruct err as [err|]; cbn; eexists; (split; [reflexivity|]); cbn; eauto.
Qed.

Lemma CreateIPInterface_returns_or_panics
    (body : IPInterfaceResourceBodyDataModelONTAP) (st : state W) :
  (∃ result e,
     (CreateIPInterface body st).1 = Returns (result, e)
     ∧ (result = None ↔ e ≠ None)
     ∧ through_handler st (CreateIPInterface body st).2 e)
  ∨ ((CreateIPInterface body st).1 = Panics (IndexOutOfRange 0 0)
     ∧ diagnostics (CreateIPInterface body st).2 = diagnostics st).
Proof.
  unfold CreateIPInterface.
  destruct (Decode body) as [bodyMap|err]; step;
    [|left; eexists _, _; (split; [reflexivity|]); (split; [naive_solver|]);
      cbn; by eauto].
  destruct (CallCreateMethod _ _ _ _) as [[[statusCode response] err] w].
  destruct err as [err|].
  { left. eexists _, _. split; [reflexivity|]. split; [naive_solver|]. cbn. eauto. }
  unfold index, len. destruct (elems (Records response)) as [|first records]; cbn.
  { by right. }
  left. destruct (Decode first) as [dataONTAP|err];
    eexists _, _; (split; [reflexivity|]); (split; [naive_solver|]); cbn; eauto.
Qed.

End adapter_properties.

(** ** The adapter with mapstructure on the tags of the data models *)

Section tagged_properties.
Context {W : Type} {r : RestClient W} {range : mapstructure.MapRange}.
#[local] Existing Instances mapstructure.filter_to_map mapstructure.body_to_map
  mapstructure.map_to_record.

(** A field of the decoded record is the string the map has under the
    tag of the field. *)
Lemma to_Get_fields (input : gomap) (d : IPInterfaceGetDataModelONTAP) :
  mapstructure.to_Get input = inl d →
  (∀ s, entries input !! "name" = Some (VString s) → Name d = s)
  ∧ (∀ s, entries input !! "scope" = Some (VString s) → Scope d = s)
  ∧ (∀ s, entries input !! "svm.name" = Some (VString s) → SVMName d = s)
  ∧ (∀ s, entries input !! "uuid" = Some (VString s) → UUID d = s).
Proof.
  unfold mapstructure.to_Get. intros Hd.
  destruct (mapstructure.decode_string "name" _) as [name|] eqn:Hname; [|done].
  destruct (mapstructure.decode_string "scope" _) as [scope|] eqn:Hscope; [|done].
  destruct (mapstructure.decode_string "svm.name" _) as [svmName|] eqn:Hsvm; [|done].
  destruct (mapstructure.decode_string "uuid" _) as [uuid|] eqn:Huuid; [|done].
  injection Hd as <-. cbn [Name Scope SVMName UUID].
  unfold mapstructure.lookup_field in *.
  repeat split; intros s Hs; rewrite Hs in *; cbn in *; congruence.
Qed.

(** Decoding does not look at the [ip] entry: the entry of a field is the
    same in two maps that differ at [ip] only. *)
Lemma lookup_field_without_ip (m1 m2 : gmap string value) (fieldName : string) :
  delete "ip" m1 = delete "ip" m2 →
  fieldName ≠ "ip" →
  mapstructure.EqualFold "ip" fieldName = false →
  mapstructure.lookup_field m1 fieldName = mapstructure.lookup_field m2 fieldName.
Proof.
  intros Hm Hne Hfold. unfold mapstructure.lookup_field.
  assert (m1 !! fieldName = m2 !! fieldName) as ->.
  { rewrite <- (lookup_delete_ne m1 "ip" fieldName), Hm by done.
    by apply lookup_delete_ne. }
  set (P := λ kv : string * value, Is_true (mapstructure.EqualFold kv.1 fieldName)).
  assert (filter P m1 = filter P m2) as ->; [|done].
  assert (∀ y, ¬ P ("ip", y)) as HP.
  { intros y. change (¬ Is_true (mapstructure.EqualFold "ip" fieldName)).
    rewrite Hfold. exact id. }
  rewrite <- (map_filter_delete_not P m1 "ip"), Hm by (intros; apply HP).
  apply map_filter_delete_not. intros; apply HP.
Qed.

Lemma to_Get_without_ip (response1 response2 : gomap) :
  without_ip response1 = without_ip response2 →
  mapstructure.to_Get response1 = mapstructure.to_Get response2.
Proof.
  intros Hip.
  assert (delete "ip" (entries response1) = delete "ip" (entries response2)) as Hm.
  { destruct response1, response2; cbn in Hip |- *; congruence. }
  unfold mapstructure.to_Get.
  by rewrite !(lookup_field_without_ip _ _ _ Hm).
Qed.

(** The loop of [GetIPInterfaces] over two lists of records that differ at
    [ip] only ends the same way: with the same slice, or with an error. *)
Lemma decode_records_without_ip api statusCode1 statusCode2 (infos1 : list gomap) :
  ∀ (infos2 : list gomap),
    without_ip <$> infos1 = without_ip <$> infos2 →
    ∀ (dataONTAP : slice IPInterfaceGetDataModelONTAP) (st1 st2 : state W),
      ∃ looped1 looped2 st1' st2',
        decode_records api statusCode1 infos1 dataONTAP st1 = (Returns looped1, st1')
        ∧ decode_records api statusCode2 infos2 dataONTAP st2 = (Returns looped2, st2')
        ∧ match looped1, looped2 with
          | inl ds1, inl ds2 => ds1 = ds2
          | inr _, inr _ => True
          | _, _ => False
          end.
Proof.
  induction infos1 as [|info1 infos1 IH]; intros [|info2 infos2] Hip dataONTAP st1 st2;
    try discriminate.
  - by exists (inl dataONTAP), (inl dataONTAP), st1, st2.
  - injection Hip as Hinfo Hip. cbn [decode_records].
    unfold Decode, mapstructure.map_to_record.
    rewrite (to_Get_without_ip _ _ Hinfo).
    destruct (mapstructure.to_Get info2) as [record|e].
    + apply (IH _ Hip).
    + step. by eexists (inr _), (inr _), _, _.
Qed.

(** C10. Both reads ask for [ip] among the fields. A record of the read
    model is its name, scope, container and identifier, and nothing else.
    Two answers of the client to the
    single-record GET that differ at the [ip] entry of the response only
    make [GetIPInterface] return the same result; two answers to the
    multi-record GET whose records differ at their [ip] entries only make
    [GetIPInterfaces] return the same result: the address and netmask
    never reach the result. *)
Theorem reads_discard_ip :
  (∀ name svmName,
     get_one_query name svmName !! "fields"
       = Some [Join ["name"; "svm.name"; "ip"; "scope"] ","])
  ∧ (∀ filter query,
       filter_query filter query →
       query !! "fields" = Some [Join ["name"; "svm.name"; "ip"; "scope"] ","])
  ∧ (∀ d : IPInterfaceGetDataModelONTAP,
       d = {| Name := Name d; Scope := Scope d; SVMName := SVMName d; UUID := UUID d |})
  ∧ (∀ (name svmName : string) (st1 st2 : state W)
       statusCode1 statusCode2 (response1 response2 : gomap) err w1 w2,
       GetNilOrOneRecord "network/ip/interfaces" (Some (get_one_query name svmName)) None
         (remote st1) = ((statusCode1, response1, err), w1) →
       GetNilOrOneRecord "network/ip/interfaces" (Some (get_one_query name svmName)) None
         (remote st2) = ((statusCode2, response2, err), w2) →
       without_ip response1 = without_ip response2 →
       ∃ result e1 e2,
         (GetIPInterface name svmName st1).1 = Returns (result, e1)
         ∧ (GetIPInterface name svmName st2).1 = Returns (result, e2))
  ∧ (∀ (filter : option IPInterfaceGetDataModelONTAP) (query : RestQuery)
       (st1 st2 : state W)
       statusCode1 statusCode2 (response1 response2 : slice gomap) err w1 w2,
       filter_query filter query →
       GetZeroOrMoreRecords "network/ip/interfaces" (Some query) None (remote st1)
         = ((statusCode1, response1, err), w1) →
       GetZeroOrMoreRecords "network/ip/interfaces" (Some query) None (remote st2)
         = ((statusCode2, response2, err), w2) →
       records_without_ip response1 = records_without_ip response2 →
       ∃ result e1 e2,
         (GetIPInterfaces filter st1).1 = Returns (result, e1)
         ∧ (GetIPInterfaces filter st2).1 = Returns (result, e2)).
Proof.
  split.
  { intros name svmName. unfold get_one_query. by destruct (decide (svmName = "")). }
  split.
  { intros filter query [|f filterMap Hf]; [reflexivity|].
    injection Hf as <-.
    destruct f as [[|? ?] [|? ?] [|? ?] [|? ?]]; by vm_compute. }
  split; [by intros []|]. split.
  - intros name svmName st1 st2 statusCode1 statusCode2 response1 response2 err w1 w2
      Hcall1 Hcall2 Hip.
    rewrite (GetIPInterface_answer _ _ _ _ _ _ _ Hcall1),
      (GetIPInterface_answer _ _ _ _ _ _ _ Hcall2).
    destruct err as [err|]; [by eauto|].
    destruct response1 as [m1|], response2 as [m2|]; try discriminate; [|by eauto].
    unfold Decode, mapstructure.map_to_record.
    rewrite (to_Get_without_ip _ _ Hip).
    destruct (mapstructure.to_Get (Some m2)); by eauto.
  - intros filter query st1 st2 statusCode1 statusCode2 response1 response2 err w1 w2
      Hquery Hcall1 Hcall2 Hip.
    destruct Hquery as [|f filterMap Hf]; unfold GetIPInterfaces;
      rewrite ?Hf; step; rewrite Hcall1, Hcall2;
      (destruct err as [err|]; [by eauto|]);
      (destruct response1 as [infos1|], response2 as [infos2|];
         try discriminate; [|by eauto]);
      injection Hip as Hip; cbn [elems default id];
      match goal with
      | |- context [decode_records ?api ?sc1 infos1 ?acc ?s1] =>
          match goal with
          | |- context [decode_records api ?sc2 infos2 acc ?s2] =>
              destruct (decode_records_without_ip api sc1 sc2 infos1 infos2 Hip acc s1 s2)
                as (looped1 & looped2 & st1' & st2' & -> & -> & Hsame)
          end
      end;
      destruct looped1 as [ds1|e1], looped2 as [ds2|e2]; try done;
      subst; by eauto.
Qed.

End tagged_properties.

(** ** The adapter in front of the remote system kept in memory *)

Section remote_properties.
Context {decode_record : Decoder gomap IPInterfaceGetDataModelONTAP}.
#[local] Existing Instance server.client.

(** What a query selects is gone once everything it selects is removed. *)
Lemma nothing_selected_once_removed (selects removed : gmap string value → bool)
    (records : list (gmap string value)) :
  Forall (λ rec, selects rec → removed rec) records →
  List.filter selects (List.filter (λ rec, negb (removed rec)) records) = [].
Proof.
  induction 1 as [|rec records Hrec _ IH]; [reflexivity|]. cbn.
  destruct (removed rec) eqn:Hremoved; cbn; [exact IH|].
  destruct (selects rec) eqn:Hselects; [|exact IH].
  exfalso. by apply Hrec.
Qed.

(** C3, as the code has it. On a remote system that holds an interface of
    the name and container, every such interface being the one the
    identifier addresses: before the delete, [GetIPInterface] does not
    report a missing response; once [DeleteIPInterface] has succeeded, the
    remote system holds no interface under the identifier, no stale record,
    and [GetIPInterface] for the same name and container returns the
    not-found outcome as a nil result with the diagnostic error "error
    reading ip_interface info" for the missing response, not with a nil
    error. *)
Theorem delete_then_get_one_is_not_found_error (uuid name svmName : string)
    (st st1 : state server.store) :
  let path := "network/ip/interfaces/" +:+ uuid in
  let query := Some (get_one_query name svmName) in
  let no_response :=
    Diagnostic "error reading ip_interface info"
      (Sprintf "error on GET %s: %s, statusCode %d"
         [OString "network/ip/interfaces";
          OError (Errorf "no response for GET %s" [OString "network/ip/interfaces"]);
          OInt 200]) in
  Exists (λ rec, server.matches query rec) (server.interfaces (remote st)) →
  Forall (λ rec, server.matches query rec → server.addressed path rec)
    (server.interfaces (remote st)) →
  DeleteIPInterface uuid st = (Returns None, st1) →
  (GetIPInterface name svmName st).1 ≠ Returns (None, Some no_response)
  ∧ Forall (λ rec, ¬ server.addressed path rec) (server.interfaces (remote st1))
  ∧ (GetIPInterface name svmName st1).1 = Returns (None, Some no_response).
Proof.
  intros path query no_response Hexists Hsame Hdelete. split; [|split].
  - destruct (GetNilOrOneRecord "network/ip/interfaces" query None (remote st))
      as [[[statusCode response] err] w] eqn:Hcall.
    rewrite (GetIPInterface_answer _ _ _ _ _ _ _ Hcall).
    cbn in Hcall. unfold server.get_one in Hcall.
    destruct (List.filter (server.matches query) (server.interfaces (remote st)))
      as [|rec [|rec' found]] eqn:Hfound.
    + exfalso. apply Exists_exists in Hexists as (rec & Hin & Hrec).
      assert (In rec []) as []. rewrite <- Hfound. apply filter_In.
      split; [by apply list_elem_of_In|by apply Is_true_true].
    + injection Hcall as <- <- <- <-. destruct (Decode (Some rec)); discriminate.
    + injection Hcall as <- <- <- <-. discriminate.
  - destruct (CallDeleteMethod path None None (remote st))
      as [[[statusCode response] err] w] eqn:Hcall.
    rewrite (DeleteIPInterface_answer _ _ _ _ _ _ Hcall) in Hdelete.
    destruct err as [err|]; [discriminate|]. injection Hdelete as <-.
    cbn in Hcall |- *. unfold server.delete in Hcall.
    destruct (existsb (server.addressed path) (server.interfaces (remote st)));
      [|discriminate].
    injection Hcall as <- <- <-. cbn.
    apply Forall_forall. intros rec Hrec%list_elem_of_In%filter_In.
    destruct Hrec as [_ Hrec].
    destruct (server.addressed path rec); cbn in Hrec |- *; [discriminate|exact id].
  - destruct (CallDeleteMethod path None None (remote st))
      as [[[statusCode response] err] w] eqn:Hcall.
    rewrite (DeleteIPInterface_answer _ _ _ _ _ _ Hcall) in Hdelete.
    destruct err as [err|]; [discriminate|]. injection Hdelete as <-.
    cbn in Hcall. unfold server.delete in Hcall.
    destruct (existsb (server.addressed path) (server.interfaces (remote st)));
      [|discriminate].
    injection Hcall as <- <- <-.
    erewrite (GetIPInterface_answer name svmName _ 200%Z None None); [done|].
    cbn. unfold server.get_one. cbn.
    pose proof (nothing_selected_once_removed _ _ _ Hsame) as Hnone.
    unfold query in Hnone. by rewrite Hnone.
Qed.

End remote_properties.

Section filter_properties.
Context {W : Type} {r : RestClient W} {range : mapstructure.MapRange}.
#[local] Existing Instances mapstructure.filter_to_map mapstructure.body_to_map
  mapstructure.map_to_record.

(** The query of a filter, field by field. *)
Lemma filter_query_constrained (f : IPInterfaceGetDataModelONTAP) :
  query_SetValues (Some (mapstructure.of_Get f))
    (query_Fields ["name"; "svm.name"; "ip"; "scope"] NewQuery)
  = constrained "name" (Name f)
      (constrained "scope" (Scope f)
         (constrained "svm.name" (SVMName f)
            (constrained "uuid" (UUID f)
               {[ "fields" := ["name,svm.name,ip,scope"] ]}))).
Proof.
  destruct f as [[|? ?] [|? ?] [|? ?] [|? ?]]; vm_compute; reflexivity.
Qed.

(** C7. In [GetIPInterfaces] with a filter that is not nil, a zero-valued
    field of the filter is unconstrained: the query of the multi-record GET
    has no parameter for it, not a parameter set to the empty string; a
    field that is not zero-valued is the parameter [name], [scope],
    [svm.name] or [uuid] of the query; and the query has no other parameter
    than these and [fields]. *)
Theorem GetIPInterfaces_filter_sends_nonzero_fields
    (f : IPInterfaceGetDataModelONTAP) (st : state W) :
  ∃ query : RestQuery,
    calls (GetIPInterfaces (Some f) st).2
      = calls st ++ [CallGetZeroOrMoreRecords "network/ip/interfaces" (Some query) None]
    ∧ query !! "name" = (if decide (Name f = "") then None else Some [Name f])
    ∧ query !! "scope" = (if decide (Scope f = "") then None else Some [Scope f])
    ∧ query !! "svm.name"
        = (if decide (SVMName f = "") then None else Some [SVMName f])
    ∧ query !! "uuid" = (if decide (UUID f = "") then None else Some [UUID f])
    ∧ query !! "fields" = Some [Join ["name"; "svm.name"; "ip"; "scope"] ","]
    ∧ dom query ⊆ {[ "fields"; "name"; "scope"; "svm.name"; "uuid" ]}.
Proof.
  eexists. split.
  { apply GetIPInterfaces_calls.
    by apply (flattened_filter_query f (Some (mapstructure.of_Get f))). }
  rewrite filter_query_constrained. unfold constrained.
  destruct f as [name scope svmName uuid]. cbn [Name Scope SVMName UUID].
  repeat split;
    repeat case_decide;
    rewrite ?dom_insert_L, ?dom_singleton_L,
      ?lookup_insert_eq, ?lookup_insert_ne, ?lookup_singleton_ne,
      ?lookup_singleton_eq by done;
    try done.
  all: apply elem_of_subseteq; intros key;
    rewrite ?elem_of_union, ?elem_of_singleton; tauto.
Qed.

End filter_properties.

Section remote_tagged_properties.
Context {range : mapstructure.MapRange}.
#[local] Existing Instances mapstructure.filter_to_map mapstructure.body_to_map
  mapstructure.map_to_record server.client.

(** C8, as the code has it. For a body with neither home node nor home
    port, the flattened body has the keys [name], [svm], [ip] and
    [location], the last holding an empty map ([home_node] and [home_port]
    are the keys left out), and it is what the create call sends; and a
    successful create, on the remote system that returns the created
    record, returns a record whose name is that of the body. *)
Theorem CreateIPInterface_without_placement
    (body : IPInterfaceResourceBodyDataModelONTAP) (st : state server.store) :
  HomeNode (Location body) = None →
  HomePort (Location body) = None →
  let bodyMap := mapstructure.of_Body body in
  let query : RestQuery := {[ "return_records" := ["true"] ]} in
  dom bodyMap = {[ "name"; "svm"; "ip"; "location" ]}
  ∧ bodyMap !! "location" = Some (VMap ∅)
  ∧ calls (CreateIPInterface body st).2
      = calls st ++ [CallCreate "network/ip/interfaces" (Some query) (Some bodyMap)]
  ∧ ∃ dataONTAP,
      (CreateIPInterface body st).1 = Returns (Some dataONTAP, None)
      ∧ Name dataONTAP = body_Name body.
Proof.
  intros Hnode Hport bodyMap query. subst bodyMap query.
  split; [by vm_compute|].
  split; [unfold mapstructure.of_Body, mapstructure.of_Location;
          rewrite Hnode, Hport; reflexivity|].
  split; [by apply CreateIPInterface_calls|].
  destruct body as [name [svm] [address netmask] [node port]].
  cbn in Hnode, Hport. subst node port.
  eexists. split.
  - eapply CreateIPInterface_first_record; [reflexivity..|].
    unfold Decode, mapstructure.map_to_record, mapstructure.to_Get.
    reflexivity.
  - reflexivity.
Qed.

End remote_tagged_properties.

(** ** The operations on particular clients *)

Section examples.
#[local] Existing Instances mapstructure.filter_to_map mapstructure.body_to_map
  mapstructure.map_to_record in_key_order scripted.client server.client.

(** C1, at the input where the code breaks it: an empty response to
    create. The create call succeeds, with status 201 and a records
    collection that is empty: [CreateIPInterface] returns neither a nil
    result nor an error, it panics on [response.Records[0]], and the error
    handler has been given nothing to report. *)
Theorem CreateIPInterface_no_record_faults :
  CreateIPInterface lif1_body (start no_record_script)
  = (Panics (IndexOutOfRange 0 0),
     State no_record_script
       [CallCreate "network/ip/interfaces"
          (Some {[ "return_records" := ["true"] ]})
          (Some (mapstructure.of_Body lif1_body))]
       [] []).
Proof. vm_compute. reflexivity. Qed.

Lemma CreateIPInterface_empty_records_panics_witness :
  (CreateIPInterface lif1_body (start nil_records_script)).1
    = Panics (IndexOutOfRange 0 0)
  ∧ diagnostics (CreateIPInterface lif1_body (start nil_records_script)).2 = [].
Proof.
  apply (CreateIPInterface_empty_records_panics lif1_body (start nil_records_script)
           (Some (mapstructure.of_Body lif1_body)) 201%Z {| Records := None |}
           nil_records_script); reflexivity.
Defined.

(** Against C3 as stated. The remote system holds [lif1]; deleting it by its
    identifier succeeds, and the [GetIPInterface] that follows, for the
    same name and container, returns an error, not a nil error. *)
Lemma delete_then_get_one_is_an_error :
  (DeleteIPInterface "uuid-0" (start lif1_store)).1 = Returns None
  ∧ (GetIPInterface "lif1" "vs1" (DeleteIPInterface "uuid-0" (start lif1_store)).2).1
      ≠ Returns (None, None).
Proof. split; [reflexivity|]. vm_compute. discriminate. Qed.

Lemma delete_then_get_one_is_not_found_error_witness :
  (GetIPInterface "lif1" "vs1" (start lif1_store)).1 = Returns (Some lif1_read, None)
  ∧ server.interfaces (remote (DeleteIPInterface "uuid-0" (start lif1_store)).2) = []
  ∧ (GetIPInterface "lif1" "vs1" (DeleteIPInterface "uuid-0" (start lif1_store)).2).1 =
      Returns (None, Some (Diagnostic "error reading ip_interface info"
        (Sprintf "error on GET %s: %s, statusCode %d"
           [OString "network/ip/interfaces";
            OError (Errorf "no response for GET %s" [OString "network/ip/interfaces"]);
            OInt 200]))).
Proof.
  destruct (delete_then_get_one_is_not_found_error "uuid-0" "lif1" "vs1"
              (start lif1_store) (DeleteIPInterface "uuid-0" (start lif1_store)).2)
    as (_ & _ & Hafter).
  - apply Exists_cons_hd. by vm_compute.
  - repeat constructor.
  - vm_compute. reflexivity.
  - split; [vm_compute; reflexivity|]. split; [reflexivity|exact Hafter].
Defined.

Lemma GetIPInterface_nil_response_is_error_witness :
  (GetIPInterface "lif1" "" (start lif1_store)).1 =
    Returns (None, Some (Diagnostic "error reading ip_interface info"
      (Sprintf "error on GET %s: %s, statusCode %d"
         [OString "network/ip/interfaces";
          OError (Errorf "no response for GET %s" [OString "network/ip/interfaces"]);
          OInt 200]))).
Proof.
  apply (proj1 (GetIPInterface_nil_response_is_error "lif1" "" (start lif1_store))
           200%Z lif1_store).
  vm_compute. reflexivity.
Defined.

(** Against C5 as stated. The client answers the multi-record GET with success and a
    records slice that is empty and not nil: [GetIPInterfaces] returns the
    nil slice, not an empty slice that is not nil. *)
Lemma GetIPInterfaces_empty_is_nil :
  (GetIPInterfaces None (start no_record_script)).1 = Returns (None, None)
  ∧ (GetIPInterfaces None (start no_record_script)).1 ≠ Returns (Some [], None).
Proof. split; [reflexivity|]. vm_compute. discriminate. Qed.

Lemma GetIPInterfaces_decoded_in_order_witness :
  ((GetIPInterfaces None (start lif1_script)).1 =
     Returns (Some [ {| Name := "lif1"; Scope := "svm"; SVMName := "vs1";
                        UUID := "uuid-0" |} ], None)
   ∧ diagnostics (GetIPInterfaces None (start lif1_script)).2 = [])
  ∧ (GetIPInterfaces None (start nil_records_script)).1 =
      Returns (None, Some (Diagnostic "error reading ip_interfaces info"
        (Sprintf "error on GET %s: %s, statusCode %d"
           [OString "network/ip/interfaces";
            OError (Errorf "no response for GET %s" [OString "network/ip/interfaces"]);
            OInt 200]))).
Proof.
  split.
  - refine (GetIPInterfaces_decoded_in_order None
              (query_Fields ["name"; "svm.name"; "ip"; "scope"] NewQuery)
              (start lif1_script) 200%Z (Some [Some lif1_record]) lif1_script _ _
              [ {| Name := "lif1"; Scope := "svm"; SVMName := "vs1"; UUID := "uuid-0" |} ]
              _);
      [apply nil_filter_query | reflexivity | repeat constructor].
  - refine (GetIPInterfaces_decoded_in_order None
              (query_Fields ["name"; "svm.name"; "ip"; "scope"] NewQuery)
              (start nil_records_script) 200%Z None nil_records_script _ _);
      [apply nil_filter_query | reflexivity].
Defined.

Lemma GetIPInterfaces_decode_failure_discards_all_witness :
  ∃ summary detail,
    (GetIPInterfaces None (start bad_record_script)).1
      = Returns (None, Some (Diagnostic summary detail))
    ∧ diagnostics (GetIPInterfaces None (start bad_record_script)).2
        = [(summary, detail)].
Proof.
  apply (GetIPInterfaces_decode_failure_discards_all None
           (query_Fields ["name"; "svm.name"; "ip"; "scope"] NewQuery)
           (start bad_record_script) 200%Z
           (Some [Some lif1_record; Some {[ "name" := VInt 7 ]}]) None
           bad_record_script); [apply nil_filter_query | reflexivity |].
  apply Exists_cons_tl, Exists_cons_hd. eexists. vm_compute. reflexivity.
Defined.

(** Against C8 as stated. For the body of [lif1], which has no placement,
    the body the create call sends has the key [location], holding an empty
    map; and the create succeeds, on the remote system that returns the
    created record with its container as [svm: {name}], with a record whose
    container is empty, not that of the body. *)
Lemma CreateIPInterface_sends_location :
  (∃ (query : option RestQuery) (bodyMap : gmap string value),
     calls (CreateIPInterface lif1_body (start empty_store)).2
       = [CallCreate "network/ip/interfaces" query (Some bodyMap)]
     ∧ bodyMap !! "location" = Some (VMap ∅)
     ∧ dom bodyMap ≠ {[ "name"; "svm"; "ip" ]})
  ∧ (CreateIPInterface lif1_body (start empty_store)).1
      = Returns (Some {| Name := "lif1"; Scope := "svm"; SVMName := "";
                         UUID := "uuid-0" |}, None).
Proof.
  split; [|vm_compute; reflexivity].
  eexists _, _. split; [vm_compute; reflexivity|].
  split; [by vm_compute|]. vm_compute. discriminate.
Qed.

Lemma CreateIPInterface_without_placement_witness :
  ∃ dataONTAP,
    (CreateIPInterface lif1_body (start empty_store)).1 = Returns (Some dataONTAP, None)
    ∧ Name dataONTAP = "lif1".
Proof.
  apply (CreateIPInterface_without_placement lif1_body (start empty_store));
    reflexivity.
Defined.

Lemma GetIPInterface_query_witness :
  (get_one_query "lif1" "" !! "scope" = Some ["cluster"]
   ∧ get_one_query "lif1" "" !! "svm.name" = None
   ∧ dom (get_one_query "lif1" "") = {[ "name"; "scope"; "fields" ]})
  ∧ (get_one_query "lif1" "vs1" !! "scope" = Some ["svm"]
     ∧ get_one_query "lif1" "vs1" !! "svm.name" = Some ["vs1"]
     ∧ dom (get_one_query "lif1" "vs1") = {[ "name"; "svm.name"; "scope"; "fields" ]}).
Proof.
  split.
  - destruct (GetIPInterface_query "lif1" "" (start lif1_store))
      as (_ & _ & _ & Hcluster & _).
    apply Hcluster. reflexivity.
  - destruct (GetIPInterface_query "lif1" "vs1" (start lif1_store))
      as (_ & _ & _ & _ & Hsvm).
    apply Hsvm. discriminate.
Defined.

Lemma reads_discard_ip_witness :
  (∃ result e1 e2,
     (GetIPInterface "lif1" "vs1" (start lif1_script)).1 = Returns (result, e1)
     ∧ (GetIPInterface "lif1" "vs1" (start lif1_moved_script)).1 = Returns (result, e2))
  ∧ (∃ result e1 e2,
       (GetIPInterfaces None (start lif1_script)).1 = Returns (result, e1)
       ∧ (GetIPInterfaces None (start lif1_moved_script)).1 = Returns (result, e2)).
Proof.
  destruct (reads_discard_ip (r := scripted.client)) as (_ & _ & _ & Hone & Hmany).
  split.
  - eapply (Hone "lif1" "vs1" (start lif1_script) (start lif1_moved_script)
              200%Z 200%Z _ _ None lif1_script lif1_moved_script);
      [reflexivity | reflexivity | vm_compute; reflexivity].
  - eapply (Hmany None _ (start lif1_script) (start lif1_moved_script)
              200%Z 200%Z _ _ None lif1_script lif1_moved_script);
      [apply nil_filter_query | reflexivity | reflexivity | vm_compute; reflexivity].
Defined.

End examples.

(** * Further properties *)

Section further_adapter_properties.
Context {W : Type} {r : RestClient W}.
Context {encode_filter : Decoder IPInterfaceGetDataModelONTAP gomap}.
Context {encode_body : Decoder IPInterfaceResourceBodyDataModelONTAP gomap}.
Context {decode_record : Decoder gomap IPInterfaceGetDataModelONTAP}.

(** Either every record decodes, or there is a first one that does not. *)
Lemma all_decode_or_first_fails (infos : list gomap) :
  (∃ ds : list IPInterfaceGetDataModelONTAP,
     Forall2 (λ info d, Decode info = inl d) infos ds)
  ∨ (∃ pre bad post (ds : list IPInterfaceGetDataModelONTAP) err,
       infos = pre ++ bad :: post
       ∧ Forall2 (λ info d, Decode info = inl d) pre ds
       ∧ decode_record bad = inr err).
Proof.
  induction infos as [|info infos IH].
  - left. exists []. constructor.
  - destruct (decode_record info) as [d|err] eqn:Hd.
    + destruct IH as [[ds Hds]|(pre & bad & post & ds & err & -> & Hds & Hbad)].
      * left. exists (d :: ds). by constructor.
      * right. exists (info :: pre), bad, post, (d :: ds), err.
        split; [done|]. split; [by constructor|done].
    + right. exists [], info, infos, [], err. split; [done|]. split; [constructor|done].
Qed.

(** The loop of [GetIPInterfaces] stops at the first record that does not
    decode, with the diagnostic of that record; what comes after it is not
    looked at. *)
Lemma decode_records_first_failure api statusCode (pre : list gomap)
    (ds : list IPInterfaceGetDataModelONTAP) bad post err :
  Forall2 (λ info d, Decode info = inl d) pre ds →
  decode_record bad = inr err →
  ∀ (dataONTAP : slice IPInterfaceGetDataModelONTAP) (st : state W),
    let summary := Sprintf "failed to decode response from GET %s" [OString api] in
    let detail := Sprintf "error: %s, statusCode %d, info %#v"
                    [OError err; OInt statusCode; OMap bad] in
    decode_records api statusCode (pre ++ bad :: post) dataONTAP st =
      (Returns (inr (Some (Diagnostic summary detail))),
       State (remote st) (calls st) (diagnostics st ++ [(summary, detail)])
             (debuglog st)).
Proof.
  intros Hpre Hbad.
  induction Hpre as [|info d pre ds Hd _ IH]; intros dataONTAP st; cbn [app decode_records].
  - unfold Decode. rewrite Hbad. reflexivity.
  - rewrite Hd. apply IH.
Qed.

(** X1. [GetIPInterface] always returns: the result is nil exactly when
    the error is not; an error is the one diagnostic reported, and a nil
    error reports nothing; the debug log gets one line on success and none
    on failure. *)
Theorem GetIPInterface_outcome (name svmName : string) (st : state W) :
  ∃ result e st',
    GetIPInterface name svmName st = (Returns (result, e), st')
    ∧ (result = None ↔ e ≠ None)
    ∧ through_handler st st' e
    ∧ match e with
      | None => ∃ line, debuglog st' = debuglog st ++ [line]
      | Some _ => debuglog st' = debuglog st
      end.
Proof.
  unfold GetIPInterface. step.
  destruct (GetNilOrOneRecord _ _ _ _) as [[[statusCode response] err] w].
  destruct err as [err|]; [|destruct response as [m|]; [destruct (Decode (Some m))|]];
    cbn; eexists _, _, _; (split; [reflexivity|]); (split; [naive_solver|]);
    cbn; eauto.
Qed.

(** X2. [GetIPInterfaces] always returns: an error comes with a nil result
    and is the one diagnostic reported, and the debug log is left alone; a
    nil error reports nothing and logs one line. *)
Theorem GetIPInterfaces_outcome (filter : option IPInterfaceGetDataModelONTAP)
    (st : state W) :
  ∃ result e st',
    GetIPInterfaces filter st = (Returns (result, e), st')
    ∧ (e ≠ None → result = None)
    ∧ through_handler st st' e
    ∧ match e with
      | None => ∃ line, debuglog st' = debuglog st ++ [line]
      | Some _ => debuglog st' = debuglog st
      end.
Proof.
  unfold GetIPInterfaces.
  destruct filter as [f|]; [destruct (Decode f) as [filterMap|err]|]; step;
    try (eexists _, _, _; (split; [reflexivity|]); settle);
    destruct (GetZeroOrMoreRecords _ _ _ _) as [[[statusCode response] err] w];
    (destruct err as [err|];
       [eexists _, _, _; (split; [reflexivity|]); settle|]);
    (destruct response as [infos|];
       [|eexists _, _, _; (split; [reflexivity|]); settle]);
    cbn [elems default id];
    (destruct (all_decode_or_first_fails infos)
       as [[ds Hds]|(pre & bad & post & ds & e & -> & Hds & Hbad)];
       [rewrite (decode_records_all _ _ _ _ Hds)
       |rewrite (decode_records_first_failure _ _ _ _ _ post _ Hds Hbad)]);
    cbn; eexists _, _, _; (split; [reflexivity|]); settle.
Qed.

(** X3. [DeleteIPInterface] always returns, after exactly one call, a
    delete on [network/ip/interfaces/] followed by the identifier, with no
    query and no body. Its error is nil exactly when the error of the client
    is, whatever the status code and the response are; an error is the one
    diagnostic reported; nothing is logged. *)
Theorem DeleteIPInterface_outcome (uuid : string) (st : state W) :
  let path := "network/ip/interfaces/" +:+ uuid in
  let answer := CallDeleteMethod path None None (remote st) in
  ∃ e st',
    DeleteIPInterface uuid st = (Returns e, st')
    ∧ (e = None ↔ answer.1.2 = None)
    ∧ through_handler st st' e
    ∧ calls st' = calls st ++ [CallDelete path None None]
    ∧ remote st' = answer.2
    ∧ debuglog st' = debuglog st.
Proof.
  intros path answer. subst answer.
  destruct (CallDeleteMethod path None None (remote st))
    as [[[statusCode response] err] w] eqn:Hcall.
  rewrite (DeleteIPInterface_answer _ _ _ _ _ _ Hcall).
  destruct err as [err|]; cbn; eexists _, _; (split; [reflexivity|]); cbn;
    (split; [naive_solver|]); eauto 10.
Qed.

(** X4. The one way [CreateIPInterface] panics: the body was flattened, the
    create call returned a nil error and a records collection of length
    zero, and the panic is the index out of range on [Records[0]]; nothing
    was reported or logged before it. *)
Theorem CreateIPInterface_panics_only_without_records
    (body : IPInterfaceResourceBodyDataModelONTAP) (st : state W) (p : panic) :
  (CreateIPInterface body st).1 = Panics p →
  p = IndexOutOfRange 0 0
  ∧ (∃ bodyMap statusCode response w,
       Decode body = inl bodyMap
       ∧ CallCreateMethod "network/ip/interfaces"
           (Some (query_Add "return_records" "true" NewQuery)) bodyMap (remote st)
           = ((statusCode, response, None), w)
       ∧ len (Records response) = 0)
  ∧ diagnostics (CreateIPInterface body st).2 = diagnostics st
  ∧ debuglog (CreateIPInterface body st).2 = debuglog st.
Proof.
  unfold CreateIPInterface.
  destruct (Decode body) as [bodyMap|err] eqn:Hbody; step; [|discriminate].
  destruct (CallCreateMethod _ _ _ _) as [[[statusCode response] err] w] eqn:Hcall.
  destruct err as [err|]; [discriminate|].
  unfold index, len.
  destruct (elems (Records response)) as [|first records] eqn:Hrecords; cbn.
  - intros [= <-]. split; [done|]. split; [|done].
    exists bodyMap, statusCode, response, w. unfold len. by rewrite Hrecords.
  - destruct (Decode first); discriminate.
Qed.

(** X5. When [GetIPInterfaces] returns a nil error, the client was asked
    once, answered with a nil error and a records slice that is not nil, and
    every record decoded: the result holds the decoded records one for one,
    in the order of the response, and is the nil slice exactly when the
    response has no record. *)
Theorem GetIPInterfaces_success_is_complete
    (filter : option IPInterfaceGetDataModelONTAP) (st : state W)
    (result : slice IPInterfaceGetDataModelONTAP) :
  (GetIPInterfaces filter st).1 = Returns (result, None) →
  ∃ query statusCode infos w,
    filter_query filter query
    ∧ GetZeroOrMoreRecords "network/ip/interfaces" (Some query) None (remote st)
        = ((statusCode, Some infos, None), w)
    ∧ Forall2 (λ info d, Decode info = inl d) infos (elems result)
    ∧ len result = length infos
    ∧ (result = None ↔ infos = []).
Proof.
  unfold GetIPInterfaces.
  destruct filter as [f|]; [destruct (Decode f) as [filterMap|err] eqn:Hf|]; step;
    try discriminate;
    destruct (GetZeroOrMoreRecords _ _ _ _) as [[[statusCode response] err] w] eqn:Hcall;
    (destruct err as [err|]; [discriminate|]);
    (destruct response as [infos|]; [|discriminate]);
    cbn [elems default id];
    (destruct (all_decode_or_first_fails infos)
       as [[ds Hds]|(pre & bad & post & ds & e & -> & Hds & Hbad)];
       [rewrite (decode_records_all _ _ _ _ Hds)
       |rewrite (decode_records_first_failure _ _ _ _ _ post _ Hds Hbad);
        discriminate]);
    cbn; intros [= <-]; eexists _, statusCode, infos, w;
    (split; [by (apply nil_filter_query || apply flattened_filter_query)|]);
    (split; [exact Hcall|]);
    pose proof (Forall2_length _ _ _ Hds) as Hlen;
    destruct ds, infos; cbn in *; try discriminate; by eauto.
Qed.

(** X6. When the client answers the multi-record GET with a nil error and
    some record does not decode, the diagnostic [GetIPInterfaces] returns is
    that of the first such record: its detail carries the error of that
    record, the status code and the record itself. It is the one diagnostic
    reported, whatever the records after it are, and nothing is logged. *)
Theorem GetIPInterfaces_reports_first_failure
    (filter : option IPInterfaceGetDataModelONTAP) (query : RestQuery) (st : state W)
    statusCode (pre post : list gomap) (bad : gomap)
    (ds : list IPInterfaceGetDataModelONTAP) err w :
  filter_query filter query →
  GetZeroOrMoreRecords "network/ip/interfaces" (Some query) None (remote st)
    = ((statusCode, Some (pre ++ bad :: post), None), w) →
  Forall2 (λ info d, Decode info = inl d) pre ds →
  decode_record bad = inr err →
  let summary :=
    Sprintf "failed to decode response from GET %s" [OString "network/ip/interfaces"] in
  let detail :=
    Sprintf "error: %s, statusCode %d, info %#v" [OError err; OInt statusCode; OMap bad] in
  (GetIPInterfaces filter st).1 = Returns (None, Some (Diagnostic summary detail))
  ∧ diagnostics (GetIPInterfaces filter st).2 = diagnostics st ++ [(summary, detail)]
  ∧ debuglog (GetIPInterfaces filter st).2 = debuglog st.
Proof.
  intros Hquery Hcall Hpre Hbad summary detail.
  destruct Hquery as [|f filterMap Hf]; unfold GetIPInterfaces;
    rewrite ?Hf; step; rewrite Hcall; cbn [elems default id];
    rewrite (decode_records_first_failure _ _ _ _ _ post _ Hpre Hbad); done.
Qed.

(** X8. An error of the client goes before the response that comes with
    it: [GetIPInterface], [GetIPInterfaces] and [CreateIPInterface] return
    a nil result with the diagnostic of the operation, whose detail carries
    the error of the client and the status code; the response is not
    decoded, so this is the one diagnostic reported. *)
Theorem transport_error_goes_first (st : state W) statusCode (err : goerror) w :
  (∀ name svmName (response : gomap),
     GetNilOrOneRecord "network/ip/interfaces" (Some (get_one_query name svmName)) None
       (remote st) = ((statusCode, response, Some err), w) →
     let summary : gostring := "error reading ip_interface info" in
     let detail := Sprintf "error on GET %s: %s, statusCode %d"
                     [OString "network/ip/interfaces"; OError err; OInt statusCode] in
     (GetIPInterface name svmName st).1 = Returns (None, Some (Diagnostic summary detail))
     ∧ diagnostics (GetIPInterface name svmName st).2
         = diagnostics st ++ [(summary, detail)])
  ∧ (∀ filter query (response : slice gomap),
       filter_query filter query →
       GetZeroOrMoreRecords "network/ip/interfaces" (Some query) None (remote st)
         = ((statusCode, response, Some err), w) →
       let summary : gostring := "error reading ip_interfaces info" in
       let detail := Sprintf "error on GET %s: %s, statusCode %d"
                       [OString "network/ip/interfaces"; OError err; OInt statusCode] in
       (GetIPInterfaces filter st).1 = Returns (None, Some (Diagnostic summary detail))
       ∧ diagnostics (GetIPInterfaces filter st).2
           = diagnostics st ++ [(summary, detail)])
  ∧ (∀ body bodyMap (response : RestResponse),
       encode_body body = inl bodyMap →
       CallCreateMethod "network/ip/interfaces"
         (Some (query_Add "return_records" "true" NewQuery)) bodyMap (remote st)
         = ((statusCode, response, Some err), w) →
       let summary : gostring := "error creating ip_interface" in
       let detail := Sprintf "error on POST %s: %s, statusCode %d"
                       [OString "network/ip/interfaces"; OError err; OInt statusCode] in
       (CreateIPInterface body st).1 = Returns (None, Some (Diagnostic summary detail))
       ∧ diagnostics (CreateIPInterface body st).2
           = diagnostics st ++ [(summary, detail)]).
Proof.
  split; [|split].
  - intros name svmName response Hcall. unfold GetIPInterface.
    rewrite get_one_query_built. step. by rewrite Hcall.
  - intros filter query response Hquery Hcall.
    destruct Hquery as [|f filterMap Hf]; unfold GetIPInterfaces;
      rewrite ?Hf; step; by rewrite Hcall.
  - intros body bodyMap response Hbody Hcall. unfold CreateIPInterface, Decode.
    rewrite Hbody. step. by rewrite Hcall.
Qed.

(** X9. No operation asks the client twice or loses what was recorded
    before it: from the state it starts in to the state it ends in, also
    when [CreateIPInterface] panics, the calls, the diagnostics and the
    debug log each keep what they had and grow by one entry at most. *)
Theorem operations_take_one_round (name svmName uuid : string)
    (filter : option IPInterfaceGetDataModelONTAP)
    (body : IPInterfaceResourceBodyDataModelONTAP) (st : state W) :
  one_round st (GetIPInterface name svmName st).2
  ∧ one_round st (GetIPInterfaces filter st).2
  ∧ one_round st (CreateIPInterface body st).2
  ∧ one_round st (DeleteIPInterface uuid st).2.
Proof.
  unfold one_round, grew_by_at_most_one. split; [|split; [|split]].
  - unfold GetIPInterface. step.
    destruct (GetNilOrOneRecord _ _ _ _) as [[[statusCode response] err] w].
    destruct err as [err|]; [|destruct response as [m|]; [destruct (Decode (Some m))|]];
      settle.
  - unfold GetIPInterfaces.
    destruct filter as [f|]; [destruct (Decode f) as [filterMap|err]|]; step;
      try settle;
      destruct (GetZeroOrMoreRecords _ _ _ _) as [[[statusCode response] err] w];
      (destruct err as [err|]; [settle|]);
      (destruct response as [infos|]; [|settle]);
      cbn [elems default id];
      (destruct (all_decode_or_first_fails infos)
         as [[ds Hds]|(pre & bad & post & ds & e & -> & Hds & Hbad)];
         [rewrite (decode_records_all _ _ _ _ Hds)
         |rewrite (decode_records_first_failure _ _ _ _ _ post _ Hds Hbad)]);
      settle.
  - unfold CreateIPInterface.
    destruct (Decode body) as [bodyMap|err]; step; [|settle].
    destruct (CallCreateMethod _ _ _ _) as [[[statusCode response] err] w].
    destruct err as [err|]; [settle|].
    destruct (index (Records response) 0) as [first|p]; [|settle].
    destruct (Decode first); settle.
  - unfold DeleteIPInterface. step.
    destruct (CallDeleteMethod _ _ _ _) as [[[statusCode response] err] w].
    destruct err as [err|]; settle.
Qed.

End further_adapter_properties.

(** ** Further properties with mapstructure on the tags *)

Section further_tagged_properties.
Context {W : Type} {r : RestClient W} {range : mapstructure.MapRange}.
#[local] Existing Instances mapstructure.filter_to_map mapstructure.body_to_map
  mapstructure.map_to_record.

(** A record flattened by its tags decodes to itself. *)
Lemma to_Get_of_Get (d : IPInterfaceGetDataModelONTAP) :
  mapstructure.to_Get (Some (mapstructure.of_Get d)) = inl d.
Proof. by destruct d. Qed.

Lemma flattened_records_decode (ds : list IPInterfaceGetDataModelONTAP) :
  Forall2 (λ info d, Decode info = inl d)
    ((λ d, Some (mapstructure.of_Get d)) <$> ds) ds.
Proof.
  induction ds as [|d ds IH]; constructor; [apply to_Get_of_Get|exact IH].
Qed.

(** X11. The read model goes through its tags and back. When the client
    answers the single-record GET with a record flattened by the tags,
    [GetIPInterface] returns that record; when it answers the multi-record
    GET with records flattened by the tags, [GetIPInterfaces] returns those
    records, in their order (the nil slice when there is none). *)
Theorem reads_return_what_was_flattened :
  (∀ (name svmName : string) (st : state W) statusCode w
     (d : IPInterfaceGetDataModelONTAP),
     GetNilOrOneRecord "network/ip/interfaces" (Some (get_one_query name svmName)) None
       (remote st) = ((statusCode, Some (mapstructure.of_Get d), None), w) →
     (GetIPInterface name svmName st).1 = Returns (Some d, None))
  ∧ (∀ (filter : option IPInterfaceGetDataModelONTAP) (query : RestQuery)
       (st : state W) statusCode w (ds : list IPInterfaceGetDataModelONTAP),
       filter_query filter query →
       GetZeroOrMoreRecords "network/ip/interfaces" (Some query) None (remote st)
         = ((statusCode, Some ((λ d, Some (mapstructure.of_Get d)) <$> ds), None), w) →
       (GetIPInterfaces filter st).1 =
         Returns (match ds with [] => None | _ => Some ds end, None)).
Proof.
  split.
  - intros name svmName st statusCode w d Hcall.
    rewrite (GetIPInterface_answer _ _ _ _ _ _ _ Hcall).
    unfold Decode, mapstructure.map_to_record. by rewrite to_Get_of_Get.
  - intros filter query st statusCode w ds Hquery Hcall.
    destruct Hquery as [|f filterMap Hf]; unfold GetIPInterfaces;
      rewrite ?Hf; step; rewrite Hcall; cbn [elems default id];
      rewrite (decode_records_all _ _ _ _ (flattened_records_decode ds));
      by destruct ds.
Qed.

(** X12. The body [CreateIPInterface] sends, for every body: the keys
    [name], [svm], [ip] and [location] and no other; [svm] holds the name of
    the container, [ip] the address and the netmask, and [location] holds
    [home_node] exactly when the home node is set and [home_port], with the
    name of the port and its node, exactly when the home port is set, and
    nothing else. *)
Theorem CreateIPInterface_body_shape
    (body : IPInterfaceResourceBodyDataModelONTAP) (st : state W) :
  ∃ bodyMap location : gmap string value,
    calls (CreateIPInterface body st).2
      = calls st ++ [CallCreate "network/ip/interfaces"
                       (Some {[ "return_records" := ["true"] ]}) (Some bodyMap)]
    ∧ dom bodyMap = {[ "name"; "svm"; "ip"; "location" ]}
    ∧ bodyMap !! "name" = Some (VString (body_Name body))
    ∧ bodyMap !! "svm"
        = Some (VMap {[ "name" := VString (vserver_Name (SVM body)) ]})
    ∧ bodyMap !! "ip"
        = Some (VMap {[ "address" := VString (Address (IP body));
                        "netmask" := VInt (Netmask (IP body)) ]})
    ∧ bodyMap !! "location" = Some (VMap location)
    ∧ location !! "home_node"
        = (λ n, VMap {[ "name" := VString (node_Name n) ]})
            <$> HomeNode (Location body)
    ∧ location !! "home_port"
        = (λ p, VMap {[ "name" := VString (port_Name p);
                        "node" := VMap {[ "name" := VString (node_Name (Node p)) ]} ]})
            <$> HomePort (Location body)
    ∧ dom location ⊆ {[ "home_node"; "home_port" ]}.
Proof.
  exists (mapstructure.of_Body body), (mapstructure.of_Location (Location body)).
  split; [by apply CreateIPInterface_calls|].
  split; [by vm_compute|].
  do 4 (split; [reflexivity|]).
  destruct body as [name svm ip [[node|] [port|]]];
    (split; [reflexivity|]); (split; [reflexivity|]);
    unfold mapstructure.of_Location; cbn [Location HomeNode HomePort];
    rewrite ?dom_insert_L, ?dom_empty_L;
    apply elem_of_subseteq; intros key;
    rewrite ?elem_of_union, ?elem_of_singleton, ?elem_of_empty; tauto.
Qed.

(** The placement can be read back from the flattened location. *)
Lemma of_Location_inj (l1 l2 : IPInterfaceResourceLocation) :
  mapstructure.of_Location l1 = mapstructure.of_Location l2 → l1 = l2.
Proof.
  intros Heq.
  pose proof (f_equal (.!! "home_node") Heq) as Hnode.
  pose proof (f_equal (.!! "home_port") Heq) as Hport. clear Heq.
  destruct l1 as [[[n1]|] [[p1 [pn1]]|]], l2 as [[[n2]|] [[p2 [pn2]]|]];
    vm_compute in Hnode, Hport; by simplify_eq.
Qed.

(** The body can be read back from the flattened body. *)
Lemma of_Body_inj (b1 b2 : IPInterfaceResourceBodyDataModelONTAP) :
  mapstructure.of_Body b1 = mapstructure.of_Body b2 → b1 = b2.
Proof.
  intros Heq.
  pose proof (f_equal (.!! "name") Heq) as Hname.
  pose proof (f_equal (.!! "svm") Heq) as Hsvm.
  pose proof (f_equal (.!! "ip") Heq) as Hip.
  pose proof (f_equal (.!! "location") Heq) as Hlocation. clear Heq.
  destruct b1 as [name1 [svm1] [address1 netmask1] location1],
    b2 as [name2 [svm2] [address2 netmask2] location2].
  change (Some (VMap (mapstructure.of_Location location1))
          = Some (VMap (mapstructure.of_Location location2))) in Hlocation.
  injection Hlocation as Hlocation. apply of_Location_inj in Hlocation.
  vm_compute in Hname, Hsvm, Hip. by simplify_eq.
Qed.

(** X13. The body sent determines the body given: two calls of
    [CreateIPInterface] from the same state with bodies that differ in any
    field (name, container, address, netmask, home node or home port) send
    different requests. *)
Theorem CreateIPInterface_sends_distinct_bodies
    (b1 b2 : IPInterfaceResourceBodyDataModelONTAP) (st : state W) :
  b1 ≠ b2 →
  calls (CreateIPInterface b1 st).2 ≠ calls (CreateIPInterface b2 st).2.
Proof.
  intros Hne Hcalls. apply Hne, of_Body_inj.
  rewrite (CreateIPInterface_calls b1 (Some (mapstructure.of_Body b1))),
    (CreateIPInterface_calls b2 (Some (mapstructure.of_Body b2))) in Hcalls by done.
  apply app_inv_head in Hcalls. congruence.
Qed.

(** X15. One field of the wrong type fails the whole read. When the record
    the client answers the single-record GET with holds, under [name],
    [scope], [svm.name] or [uuid], a value that is neither a string nor
    nil, [GetIPInterface] returns a nil result with the diagnostic "failed
    to decode response from GET network/ip/interfaces", whatever the other
    entries of the record are. *)
Theorem field_of_wrong_type_fails_the_read
    (m : gmap string value) (key : string) (v : value)
    (name svmName : string) (st : state W) statusCode w :
  key ∈ ["name"; "scope"; "svm.name"; "uuid"] →
  m !! key = Some v →
  not_a_string v →
  GetNilOrOneRecord "network/ip/interfaces" (Some (get_one_query name svmName)) None
    (remote st) = ((statusCode, Some m, None), w) →
  ∃ err,
    (GetIPInterface name svmName st).1 =
      Returns (None, Some (Diagnostic
        (Sprintf "failed to decode response from GET %s" [OString "network/ip/interfaces"])
        (Sprintf "error: %s, statusCode %d, response %#v"
           [OError err; OInt statusCode; OMap (Some m)]))).
Proof.
  intros Hkey Hv Hwrong Hcall.
  rewrite (GetIPInterface_answer _ _ _ _ _ _ _ Hcall).
  unfold Decode, mapstructure.map_to_record.
  destruct (mapstructure.to_Get (Some m)) as [d|err] eqn:Hd; [exfalso|by eauto].
  unfold mapstructure.to_Get in Hd. cbn [entries default id] in Hd.
  assert (mapstructure.lookup_field m key = Some v) as Hfield
    by (unfold mapstructure.lookup_field; by rewrite Hv).
  assert (∃ e, mapstructure.decode_string key (Some v) = inr e) as [e He]
    by (destruct v; try done; by eexists).
  repeat (apply elem_of_cons in Hkey as [->|Hkey]);
    [| | | |by apply elem_of_nil in Hkey];
    rewrite Hfield, He in Hd;
    repeat match type of Hd with
      | context [mapstructure.decode_string ?k ?x] =>
          destruct (mapstructure.decode_string k x)
      end; discriminate.
Qed.

(** A field whose tag no key of the map equals, even up to case, has no
    entry, whatever the order of the range. *)
Lemma lookup_field_absent (m : gmap string value) (fieldName : string) :
  carries_no_field m →
  fieldName ∈ ["name"; "scope"; "svm.name"; "uuid"] →
  mapstructure.lookup_field m fieldName = None.
Proof.
  intros Hm Hfield. unfold mapstructure.lookup_field.
  destruct (m !! fieldName) as [v|] eqn:Hv.
  { exfalso. pose proof (Hm fieldName (mk_is_Some _ _ Hv) fieldName Hfield) as Hself.
    repeat (apply elem_of_cons in Hfield as [->|Hfield]);
      [by vm_compute in Hself..|by apply elem_of_nil in Hfield]. }
  assert (filter (λ kv : string * value, mapstructure.EqualFold kv.1 fieldName) m = ∅)
    as ->; [|by rewrite map_to_list_empty].
  apply map_empty. intros key. apply map_lookup_filter_None_2. right.
  intros v Hkey HP. cbn in HP. apply Is_true_true in HP.
  rewrite (Hm key) in HP; [done|by eexists|done].
Qed.

Lemma to_Get_without_fields (m : gmap string value) :
  carries_no_field m → mapstructure.to_Get (Some m) = inl zero_record.
Proof.
  intros Hm. unfold mapstructure.to_Get. cbn [entries default id].
  rewrite !(lookup_field_absent m) by (done || set_solver).
  reflexivity.
Qed.

(** X14. The reads and create do not ask a record for any field. A record
    none of whose keys is, under [strings.EqualFold], [name], [scope],
    [svm.name] or [uuid] (the empty object, an object with an address
    alone) is decoded to the zero value of the read model, in whatever
    order the map is ranged over: [GetIPInterface] and [CreateIPInterface]
    return it, with its empty name and identifier, and a nil error. *)
Theorem record_without_fields_is_returned_zero (m : gmap string value) :
  carries_no_field m →
  (∀ (name svmName : string) (st : state W) statusCode w,
     GetNilOrOneRecord "network/ip/interfaces" (Some (get_one_query name svmName)) None
       (remote st) = ((statusCode, Some m, None), w) →
     (GetIPInterface name svmName st).1 = Returns (Some zero_record, None))
  ∧ (∀ (body : IPInterfaceResourceBodyDataModelONTAP) (st : state W)
       statusCode response w,
       CallCreateMethod "network/ip/interfaces"
         (Some (query_Add "return_records" "true" NewQuery))
         (Some (mapstructure.of_Body body)) (remote st)
         = ((statusCode, response, None), w) →
       elems (Records response) !! 0 = Some (Some m) →
       (CreateIPInterface body st).1 = Returns (Some zero_record, None)).
Proof.
  intros Hm. split.
  - intros name svmName st statusCode w Hcall.
    rewrite (GetIPInterface_answer _ _ _ _ _ _ _ Hcall).
    unfold Decode, mapstructure.map_to_record. by rewrite to_Get_without_fields.
  - intros body st statusCode response w Hcall Hfirst.
    eapply CreateIPInterface_first_record; [reflexivity|exact Hcall|exact Hfirst|].
    by apply to_Get_without_fields.
Qed.

End further_tagged_properties.

(** ** Further properties across the orders of a range over a map *)

Section further_range_properties.
Context {W : Type} {r : RestClient W} (range1 range2 : mapstructure.MapRange).
#[local] Existing Instances mapstructure.filter_to_map mapstructure.body_to_map.

(** In a map where no two keys are the same tag up to case, a range looking
    for a tag has one entry to meet at most. *)
Lemma collision_free_matching (m : gmap string value) (tag : string) :
  collision_free m →
  tag ∈ ["name"; "scope"; "svm.name"; "uuid"] →
  (length (map_to_list
             (filter (λ kv : string * value, mapstructure.EqualFold kv.1 tag) m))
   ≤ 1)%nat.
Proof.
  intros Hm Htag.
  remember (map_to_list
              (filter (λ kv : string * value, mapstructure.EqualFold kv.1 tag) m))
    as matching eqn:Hmatching.
  assert (∀ key v, (key, v) ∈ matching →
            is_Some (m !! key) ∧ mapstructure.EqualFold key tag = true) as Hin.
  { intros key v Hkv. rewrite Hmatching in Hkv.
    apply elem_of_map_to_list, map_lookup_filter_Some in Hkv as [Hkey HP].
    split; [by eexists|]. by apply Is_true_true in HP. }
  assert (NoDup matching.*1) as Hnodup
    by (rewrite Hmatching; apply NoDup_fst_map_to_list).
  destruct matching as [|[key1 v1] [|[key2 v2] rest]]; cbn; [lia|lia|exfalso].
  destruct (Hin key1 v1) as [Hkey1 Hfold1]; [by constructor|].
  destruct (Hin key2 v2) as [Hkey2 Hfold2]; [by repeat constructor|].
  pose proof (Hm key1 key2 tag Hkey1 Hkey2 Htag Hfold1 Hfold2) as ->.
  cbn in Hnodup. apply NoDup_cons in Hnodup as [Hnotin _].
  apply Hnotin. by constructor.
Qed.

Lemma lookup_field_any_range (m : gmap string value) (tag : string) :
  collision_free m →
  tag ∈ ["name"; "scope"; "svm.name"; "uuid"] →
  mapstructure.lookup_field (range := range1) m tag
  = mapstructure.lookup_field (range := range2) m tag.
Proof.
  intros Hm Htag. unfold mapstructure.lookup_field.
  destruct (m !! tag); [done|].
  pose proof (collision_free_matching m tag Hm Htag) as Hlength. cbv zeta.
  destruct (map_to_list _) as [|kv [|kv' rest]]; cbn in Hlength |- *; [done|done|lia].
Qed.

Lemma to_Get_any_range (m : gmap string value) :
  collision_free m →
  mapstructure.to_Get (range := range1) (Some m)
  = mapstructure.to_Get (range := range2) (Some m).
Proof.
  intros Hm. unfold mapstructure.to_Get. cbn [entries default id].
  by rewrite !(lookup_field_any_range m) by (done || set_solver).
Qed.

(** X10. [CreateIPInterface] and [GetIPInterface] decode a record the same
    way, whatever the orders in which the two decodings range over the
    record. When the create call succeeds with a first record in which no
    two keys are the same field up to case, and the single-record GET that
    follows, on the remote system as the create left it, is answered with
    that same record, then the two operations return the same record with
    nil errors, or both return a nil result with an error. *)
Theorem create_then_get_one_agree
    (body : IPInterfaceResourceBodyDataModelONTAP) (name svmName : string)
    (st : state W) statusCode response w (m : gmap string value)
    statusCode' w' :
  CallCreateMethod "network/ip/interfaces"
    (Some (query_Add "return_records" "true" NewQuery))
    (Some (mapstructure.of_Body body)) (remote st)
    = ((statusCode, response, None), w) →
  elems (Records response) !! 0 = Some (Some m) →
  GetNilOrOneRecord "network/ip/interfaces" (Some (get_one_query name svmName)) None w
    = ((statusCode', Some m, None), w') →
  collision_free m →
  let created :=
    CreateIPInterface (decode_record := mapstructure.map_to_record (range := range1))
      body st in
  let read :=
    GetIPInterface (decode_record := mapstructure.map_to_record (range := range2))
      name svmName created.2 in
  (∃ d, created.1 = Returns (Some d, None) ∧ read.1 = Returns (Some d, None))
  ∨ (∃ e1 e2, created.1 = Returns (None, Some e1) ∧ read.1 = Returns (None, Some e2)).
Proof.
  intros Hcreate Hfirst Hget Hm created read. subst created read.
  assert (remote (CreateIPInterface
                    (decode_record := mapstructure.map_to_record (range := range1))
                    body st).2 = w) as Hremote.
  { unfold CreateIPInterface, Decode, mapstructure.body_to_map. step. rewrite Hcreate.
    unfold index. rewrite Hfirst.
    by destruct (mapstructure.map_to_record (range := range1) (Some m)). }
  rewrite <- Hremote in Hget.
  rewrite (GetIPInterface_answer _ _ _ _ _ _ _ Hget).
  unfold CreateIPInterface, Decode, mapstructure.body_to_map. step. rewrite Hcreate.
  unfold index. rewrite Hfirst.
  unfold mapstructure.map_to_record. rewrite <- (to_Get_any_range m Hm).
  destruct (mapstructure.to_Get (range := range1) (Some m)); cbn; eauto.
Qed.

End further_range_properties.

(** ** The further properties on particular clients *)

Section further_examples.
#[local] Existing Instances mapstructure.filter_to_map mapstructure.body_to_map
  mapstructure.map_to_record in_key_order scripted.client server.client.

Lemma CreateIPInterface_panics_only_without_records_witness :
  diagnostics (CreateIPInterface lif1_body (start no_record_script)).2 = []
  ∧ debuglog (CreateIPInterface lif1_body (start no_record_script)).2 = [].
Proof.
  destruct (CreateIPInterface_panics_only_without_records lif1_body
              (start no_record_script) (IndexOutOfRange 0 0))
    as (_ & _ & Hdiagnostics & Hlog); [vm_compute; reflexivity|].
  split; [exact Hdiagnostics|exact Hlog].
Defined.

Lemma GetIPInterfaces_success_is_complete_witness :
  ∃ query statusCode infos w,
    filter_query None query
    ∧ GetZeroOrMoreRecords "network/ip/interfaces" (Some query) None lif1_script
        = ((statusCode, Some infos, None), w)
    ∧ Forall2 (λ info d, Decode info = inl d) infos [lif1_read]
    ∧ 1 = length infos
    ∧ (Some [lif1_read] = None ↔ infos = []).
Proof.
  apply (GetIPInterfaces_success_is_complete None (start lif1_script) (Some [lif1_read])).
  reflexivity.
Defined.

Lemma GetIPInterfaces_reports_first_failure_witness :
  ∃ err,
    let summary :=
      Sprintf "failed to decode response from GET %s" [OString "network/ip/interfaces"] in
    let detail :=
      Sprintf "error: %s, statusCode %d, info %#v"
        [OError err; OInt 200; OMap (Some {[ "name" := VInt 7 ]})] in
    (GetIPInterfaces None (start two_bad_records_script)).1
      = Returns (None, Some (Diagnostic summary detail))
    ∧ diagnostics (GetIPInterfaces None (start two_bad_records_script)).2
        = [(summary, detail)]
    ∧ debuglog (GetIPInterfaces None (start two_bad_records_script)).2 = [].
Proof.
  eexists.
  refine (GetIPInterfaces_reports_first_failure None
            (query_Fields ["name"; "svm.name"; "ip"; "scope"] NewQuery)
            (start two_bad_records_script) 200%Z [Some lif1_record]
            [Some {[ "uuid" := VBool true ]}; Some lif1_record]
            (Some {[ "name" := VInt 7 ]}) [lif1_read] _ two_bad_records_script
            _ _ _ _);
    [apply nil_filter_query | reflexivity | repeat constructor
    | vm_compute; reflexivity].
Defined.

Lemma transport_error_goes_first_witness :
  (GetIPInterface "lif1" "vs1" (start down_script)).1 =
    Returns (None, Some (Diagnostic "error reading ip_interface info"
      (Sprintf "error on GET %s: %s, statusCode %d"
         [OString "network/ip/interfaces";
          OError (Errorf "connection refused" []); OInt 503])))
  ∧ (GetIPInterfaces None (start down_script)).1 =
      Returns (None, Some (Diagnostic "error reading ip_interfaces info"
        (Sprintf "error on GET %s: %s, statusCode %d"
           [OString "network/ip/interfaces";
            OError (Errorf "connection refused" []); OInt 503])))
  ∧ (CreateIPInterface lif1_body (start down_script)).1 =
      Returns (None, Some (Diagnostic "error creating ip_interface"
        (Sprintf "error on POST %s: %s, statusCode %d"
           [OString "network/ip/interfaces";
            OError (Errorf "connection refused" []); OInt 503]))).
Proof.
  destruct (transport_error_goes_first (start down_script) 503%Z
              (Errorf "connection refused" []) down_script)
    as (Hone & Hmany & Hcreate).
  split; [|split].
  - apply (Hone "lif1" "vs1" (Some lif1_record)). reflexivity.
  - apply (Hmany None (query_Fields ["name"; "svm.name"; "ip"; "scope"] NewQuery)
             (Some [Some {[ "name" := VInt 7 ]}])); [apply nil_filter_query|reflexivity].
  - apply (Hcreate lif1_body (Some (mapstructure.of_Body lif1_body))
             {| Records := Some [] |}); reflexivity.
Defined.

Lemma reads_return_what_was_flattened_witness :
  (GetIPInterface "lif1" "vs1" (start flattened_script)).1
    = Returns (Some lif1_read, None)
  ∧ (GetIPInterfaces None (start flattened_script)).1
      = Returns (Some [lif1_read; lif1_filter], None).
Proof.
  destruct (reads_return_what_was_flattened (r := scripted.client)) as [Hone Hmany].
  split.
  - apply (Hone "lif1" "vs1" (start flattened_script) 200%Z flattened_script).
    reflexivity.
  - apply (Hmany None (query_Fields ["name"; "svm.name"; "ip"; "scope"] NewQuery)
             (start flattened_script) 200%Z flattened_script [lif1_read; lif1_filter]);
      [apply nil_filter_query|reflexivity].
Defined.

Lemma CreateIPInterface_sends_distinct_bodies_witness :
  calls (CreateIPInterface lif1_body (start empty_store)).2
  ≠ calls (CreateIPInterface placed_body (start empty_store)).2.
Proof.
  apply (CreateIPInterface_sends_distinct_bodies lif1_body placed_body
           (start empty_store)).
  discriminate.
Defined.

Lemma field_of_wrong_type_fails_the_read_witness :
  ∃ err,
    (GetIPInterface "7" "" (start wrong_name_script)).1 =
      Returns (None, Some (Diagnostic
        (Sprintf "failed to decode response from GET %s" [OString "network/ip/interfaces"])
        (Sprintf "error: %s, statusCode %d, response %#v"
           [OError err; OInt 200;
            OMap (Some {[ "name" := VInt 7; "uuid" := VString "uuid-9" ]})]))).
Proof.
  apply (field_of_wrong_type_fails_the_read
           {[ "name" := VInt 7; "uuid" := VString "uuid-9" ]} "name" (VInt 7)
           "7" "" (start wrong_name_script) 200%Z wrong_name_script);
    [constructor | reflexivity | exact I | reflexivity].
Defined.

Lemma record_without_fields_is_returned_zero_witness :
  (GetIPInterface "lif1" "vs1" (start address_only_script)).1
    = Returns (Some zero_record, None)
  ∧ (CreateIPInterface lif1_body (start address_only_script)).1
      = Returns (Some zero_record, None).
Proof.
  pose (object := {[ "ip" := VMap {[ "address" := VString "10.0.0.5";
                                     "netmask" := VInt 24 ]} ]} : gmap string value).
  assert (carries_no_field object) as Hobject.
  { intros key [v Hv] tag Htag. apply lookup_singleton_Some in Hv as [<- _].
    repeat (apply elem_of_cons in Htag as [->|Htag]);
      [reflexivity..|by apply elem_of_nil in Htag]. }
  destruct (record_without_fields_is_returned_zero (r := scripted.client) object Hobject)
    as [Hone Hcreate].
  split.
  - apply (Hone "lif1" "vs1" (start address_only_script) 200%Z address_only_script).
    reflexivity.
  - apply (Hcreate lif1_body (start address_only_script) 201%Z
             {| Records := Some [Some object] |} address_only_script); reflexivity.
Defined.

Lemma create_then_get_one_agree_witness :
  let created :=
    CreateIPInterface
      (decode_record := mapstructure.map_to_record (range := in_key_order))
      lif1_body (start empty_store) in
  let read :=
    GetIPInterface
      (decode_record := mapstructure.map_to_record (range := in_reverse_key_order))
      "lif1" "vs1" created.2 in
  (∃ d, created.1 = Returns (Some d, None) ∧ read.1 = Returns (Some d, None))
  ∨ (∃ e1 e2, created.1 = Returns (None, Some e1) ∧ read.1 = Returns (None, Some e2)).
Proof.
  eapply (create_then_get_one_agree (r := server.client)
            in_key_order in_reverse_key_order lif1_body "lif1" "vs1"
            (start empty_store) 201%Z _ _ lif1_wire_record);
    [vm_compute; reflexivity | vm_compute; reflexivity | vm_compute; reflexivity |].
  intros key1 key2 tag [v1 Hv1] [v2 Hv2] Htag Hfold1 Hfold2.
  unfold lif1_wire_record in Hv1, Hv2.
  repeat (apply lookup_insert_Some in Hv1 as [[<- _]|[_ Hv1]]);
    try (by apply lookup_singleton_Some in Hv1 as [<- _];
         repeat (apply lookup_insert_Some in Hv2 as [[<- _]|[_ Hv2]]);
         try (apply lookup_singleton_Some in Hv2 as [<- _]);
         repeat (apply elem_of_cons in Htag as [->|Htag]);
         try (by apply elem_of_nil in Htag));
    repeat (apply lookup_insert_Some in Hv2 as [[<- _]|[_ Hv2]]);
    try (apply lookup_singleton_Some in Hv2 as [<- _]);
    repeat (apply elem_of_cons in Htag as [->|Htag]);
    try (by apply elem_of_nil in Htag); done.
Defined.

(** X16. A record with two keys that are the same field up to case,
    neither of them the tag itself, is read by the order of the range over
    the record: answered with [{NAME: "lif1", Name: "lif2"}],
    [GetIPInterface] returns the name [lif2] under one order and the name
    [lif1] under another, each with a nil error. *)
Theorem colliding_keys_are_read_by_the_range :
  (GetIPInterface
     (decode_record := mapstructure.map_to_record (range := in_key_order))
     "lif1" "" (start two_names_script)).1
    = Returns (Some {| Name := "lif2"; Scope := ""; SVMName := ""; UUID := "" |}, None)
  ∧ (GetIPInterface
       (decode_record := mapstructure.map_to_record (range := in_reverse_key_order))
       "lif1" "" (start two_names_script)).1
      = Returns (Some {| Name := "lif1"; Scope := ""; SVMName := ""; UUID := "" |}, None).
Proof. split; vm_compute; reflexivity. Qed.

End further_examples.
